(** * RJSArray: the array adapter over a realm link list

    A shallow embedding of [src/RJSArray.cpp]: the property callbacks
    ([ArrayGetProperty], [ArraySetProperty], [ArrayPropertyNames]) and the
    static functions ([ArrayPush], [ArrayPop], [ArrayShift], [ArrayUnshift],
    [ArraySplice]) that JavaScriptCore calls on a wrapped [realm::List].

    A C++ function that mutates the list in place and may throw is a
    computation in the monad [M]: it takes the list, and gives back either
    the exception or the value, together with the list as it was left.  A
    callback's [try]/[catch] turns that into a [completion]. *)

From Stdlib Require Import ZArith DecimalString DecimalNat.
From stdpp Require Import base tactics option list strings.

(** ** Exceptions *)

(** The exceptions that reach the [catch] clauses of the callbacks.  The
    first three are the C++ classes the file throws or catches by name. *)
Inductive exception : Type :=
  | runtime_error (what : string)   (* throw std::runtime_error(what) *)
  | out_of_range                    (* caught as std::out_of_range & *)
  | invalid_argument                (* caught as std::invalid_argument & *)
  | StaleReferenceError             (* List::verify_attached, see below *)
  | ArgumentCountError              (* RJSValidateArgumentCount..., see below *)
  | CoercionError (what : string).  (* a failure of the host's collaborators *)

(** The two errors RJSArray.cpp throws itself, under the names of the
    error taxonomy. *)
Definition IllegalMutationError : exception :=
  runtime_error "Can only mutate lists within a transaction."%string.
Definition ReadOnlyPropertyError : exception :=
  runtime_error "The 'length' property is readonly."%string.

(** ** The list handle *)

(** A link list stores the row indices of its target objects. *)
Definition Row : Type := nat.

(** [realm::List]: [list->realm->is_in_transaction()], whether the link
    view is still attached, and the rows of [list->link_view] in order. *)
Record List : Type := mkList {
  is_attached : bool;
  is_in_transaction : bool;
  link_view : list Row
}.

Definition with_link_view (self : List) (rows : list Row) : List :=
  {| is_attached := is_attached self;
     is_in_transaction := is_in_transaction self;
     link_view := rows |}.

(** ** Computations that mutate the list and may throw *)

Definition M (A : Type) : Type := List → (exception + A) * List.

Definition ret {A} (a : A) : M A := λ self, (inr a, self).
Definition throw {A} (e : exception) : M A := λ self, (inl e, self).
Definition bind {A B} (m : M A) (k : A → M B) : M B := λ self,
  match m self with
  | (inr a, self') => k a self'
  | (inl e, self') => (inl e, self')
  end.
(** A collaborator that only computes a value or throws. *)
Definition lift {A} (r : exception + A) : M A := λ self, (r, self).

Declare Scope M_scope.
Delimit Scope M_scope with M.
Notation "x <- m ;; k" := (bind m (λ x, k))
  (at level 100, m at next level, right associativity) : M_scope.
Notation "m ;;; k" := (bind m (λ _, k))
  (at level 100, right associativity) : M_scope.
Local Open Scope M_scope.

(** ** The link view (storage engine) *)

(** Modelled from the spec: the underlying ordered link collection
    ([LinkView], storage engine).  [size], [add] at the end, [insert] at an
    offset (callers pass offsets up to the size), [remove] of one slot
    (callers pass offsets below the size: [List::get] on the same offset
    comes first).  Order is kept exactly as mutated. *)
Definition link_view_size : M nat := λ self, (inr (length (link_view self)), self).
Definition link_view_add (target : Row) : M unit := λ self,
  (inr tt, with_link_view self (link_view self ++ [target])).
Definition link_view_insert (ndx : nat) (target : Row) : M unit := λ self,
  (inr tt, with_link_view self
             (take ndx (link_view self) ++ target :: drop ndx (link_view self))).
Definition link_view_remove (ndx : nat) : M unit := λ self,
  (inr tt, with_link_view self (delete ndx (link_view self))).

(** ** [realm::List] (list.hpp) *)

(** Modelled from the spec: [List::verify_attached], the read half of the
    attachment guard: fails with [StaleReferenceError] if the list is
    detached, and has no effect beyond the validation. *)
Definition verify_attached : M unit := λ self,
  if is_attached self then (inr tt, self) else (inl StaleReferenceError, self).

Definition List_size : M nat := link_view_size.

(** Modelled from the spec: [List::get] and [List::set]; an offset at or
    beyond the current length is [out_of_range], otherwise the slot is read,
    or replaced in place. *)
Definition List_get (row_ndx : nat) : M Row := λ self,
  match link_view self !! row_ndx with
  | Some target => (inr target, self)
  | None => (inl out_of_range, self)
  end.
Definition List_set (row_ndx : nat) (target : Row) : M unit := λ self,
  if decide (row_ndx < length (link_view self))
  then (inr tt, with_link_view self (<[row_ndx := target]> (link_view self)))
  else (inl out_of_range, self).

(** ** RJSUtil.hpp *)

(** Modelled from the spec: [RJSValidatedPositiveIndex], the index
    resolver: the key is parsed as a non-negative base-10 integer, and a
    parse failure is [invalid_argument] (not an index). *)
Definition RJSValidatedPositiveIndex (indexStr : string) : exception + nat :=
  match NilZero.uint_of_string indexStr with
  | Some d => inr (Nat.of_uint d)
  | None => inl invalid_argument
  end.

(** Modelled from the spec: [RJSValidateArgumentCountIsAtLeast] fails with
    [ArgumentCountError] when the call has fewer arguments than required.
    Of [RJSValidateArgumentCount] the specification has only that its
    callers take no arguments: the count the caller expects passes; any
    other count is taken here as the same error, which RJSArray.cpp does
    not decide. *)
Definition RJSValidateArgumentCount (argumentCount expected : nat) : M unit :=
  if decide (argumentCount = expected) then ret tt else throw ArgumentCountError.
Definition RJSValidateArgumentCountIsAtLeast (argumentCount expected : nat) : M unit :=
  if decide (expected ≤ argumentCount) then ret tt else throw ArgumentCountError.

(** ** Values handed back to JavaScriptCore *)

(** [RJSObjectCreate(ctx, Object(list->realm, list->object_schema, row))]:
    the wrapper of one stored object. *)
Inductive JSObject : Type :=
  | RJSObjectCreate (row : Row).

Inductive JSValue : Type :=
  | JSValueMakeUndefined
  | JSValueMakeNumber (number : Z)
  | JSValueOfObject (object : JSObject)
  | JSObjectMakeArray (objects : list JSObject).
Coercion JSValueOfObject : JSObject >-> JSValue.

(** What a callback leaves behind: a value; NULL (or false) with
    [*jsException] untouched; NULL (or false) with
    [*jsException = RJSMakeError(ctx, exp)]. *)
Inductive completion (A : Type) : Type :=
  | Returned (value : A)
  | NotHandled
  | Raised (exp : exception).
Arguments Returned {A} value.
Arguments NotHandled {A}.
Arguments Raised {A} exp.

(** ** 64-bit conversions of [ArraySplice] *)

(** The value of an integer of one of the two types converted to the
    other, [long] respectively [size_t]: reduced modulo 2^64 into the range
    of the type. *)
Definition to_long (z : Z) : Z := ((z + 2 ^ 63) mod 2 ^ 64 - 2 ^ 63)%Z.
Definition to_size_t (z : Z) : Z := (z mod 2 ^ 64)%Z.

(** The number of [RJSValidatedValueToNumber], a [double], converted to
    [long] by [std::min<long>] and [std::max<long>].  Inside the range of
    [long] it is the number itself.  Outside it C++ leaves the conversion
    undefined; the model takes what the conversion instruction of x86-64
    gives there, the smallest [long]. *)
Definition number_to_long (number : Z) : Z :=
  if decide (- 2 ^ 63 ≤ number < 2 ^ 63)%Z then number else (- 2 ^ 63)%Z.

(** ** The callbacks *)

Section RJSArray.

(** The values the host passes in, and the two collaborators that read
    them: [RJSAccessor::to_object_index] (object_accessor.hpp) turns a value
    into the row of a stored object of the list's schema, and
    [RJSValidatedValueToNumber] (RJSUtil.hpp) turns it into a number.  The
    number is a [double] in the code; the model has the integral ones.
    Either collaborator may throw. *)
Variable JSValueRef : Type.
Variable to_object_index : JSValueRef → exception + Row.
Variable RJSValidatedValueToNumber : JSValueRef → exception + Z.

Definition RJSVerifiedArray : M unit := verify_attached.

Definition RJSVerifiedMutableArray : M unit :=
  RJSVerifiedArray;;;
  λ self,
    if negb (is_in_transaction self)
    then throw IllegalMutationError self
    else ret tt self.

(** The body of the [try] block of [ArrayGetProperty]. *)
Definition ArrayGetProperty_try (propertyName : string) : M JSValue :=
  RJSVerifiedArray;;;
  size <- List_size;;
  let indexStr := propertyName in
  if decide (indexStr = "length"%string) then
    ret (JSValueMakeNumber (Z.of_nat size))
  else
    row_ndx <- lift (RJSValidatedPositiveIndex indexStr);;
    row <- List_get row_ndx;;
    ret (JSValueOfObject (RJSObjectCreate row)).

Definition ArrayGetProperty (object : List) (propertyName : string)
  : completion JSValue * List :=
  match ArrayGetProperty_try propertyName object with
  | (inr value, object') => (Returned value, object')
  | (inl out_of_range, object') => (Returned JSValueMakeUndefined, object')
  | (inl invalid_argument, object') => (NotHandled, object')
  | (inl exp, object') => (Raised exp, object')
  end.

(** The body of the [try] block of [ArraySetProperty].  C++ leaves the
    order in which the two arguments of [list->set(...)] are evaluated
    open; they are evaluated here in the order they are written.  The
    order shows only when the name does not parse and the value does not
    coerce either; the properties below keep away from that case. *)
Definition ArraySetProperty_try (propertyName : string) (value : JSValueRef) : M unit :=
  RJSVerifiedMutableArray;;;
  let indexStr := propertyName in
  (if decide (indexStr = "length"%string)
   then throw ReadOnlyPropertyError else ret tt);;;
  row_ndx <- lift (RJSValidatedPositiveIndex indexStr);;
  target <- lift (to_object_index value);;
  List_set row_ndx target.

(** [Returned tt] is the callback's [true]. *)
Definition ArraySetProperty (object : List) (propertyName : string) (value : JSValueRef)
  : completion unit * List :=
  match ArraySetProperty_try propertyName value object with
  | (inr tt, object') => (Returned tt, object')
  | (inl invalid_argument, object') => (NotHandled, object')
  | (inl exp, object') => (Raised exp, object')
  end.

(** [sprintf(str, "%zu", i)] *)
Definition index_name (i : nat) : string := NilZero.string_of_uint (Nat.to_uint i).

(** [ArrayPropertyNames] has no [try] block: an exception leaves the
    callback.  The result is the names added to the accumulator. *)
Definition ArrayPropertyNames (object : List) : exception + list string :=
  match (RJSVerifiedArray;;; List_size) object with
  | (inr size, _) => inr (index_name <$> seq 0 size)
  | (inl exp, _) => inl exp
  end.

(** The [catch (std::exception &exp)] of the static functions. *)
Definition catch_exception (try : M JSValue) (thisObject : List)
  : completion JSValue * List :=
  match try thisObject with
  | (inr value, thisObject') => (Returned value, thisObject')
  | (inl exp, thisObject') => (Raised exp, thisObject')
  end.

(** [for (size_t i = 0; i < argumentCount; i++) array->link_view->add(...)],
    on the arguments from [arguments[i]] on. *)
Fixpoint ArrayPush_loop (arguments : list JSValueRef) : M unit :=
  match arguments with
  | [] => ret tt
  | argument :: arguments' =>
      target <- lift (to_object_index argument);;
      link_view_add target;;;
      ArrayPush_loop arguments'
  end.

Definition ArrayPush (thisObject : List) (arguments : list JSValueRef)
  : completion JSValue * List :=
  catch_exception
    (RJSVerifiedMutableArray;;;
     RJSValidateArgumentCountIsAtLeast (length arguments) 1;;;
     ArrayPush_loop arguments;;;
     size <- link_view_size;;
     ret (JSValueMakeNumber (Z.of_nat size)))
    thisObject.

Definition ArrayPop (thisObject : List) (arguments : list JSValueRef)
  : completion JSValue * List :=
  catch_exception
    (RJSVerifiedMutableArray;;;
     RJSValidateArgumentCount (length arguments) 0;;;
     size <- List_size;;
     if decide (size = 0) then ret JSValueMakeUndefined
     else
       let index := size - 1 in
       row <- List_get index;;
       let obj := RJSObjectCreate row in
       link_view_remove index;;;
       ret (JSValueOfObject obj))
    thisObject.

(** [for (size_t i = 0; i < argumentCount; i++) array->link_view->insert(i, ...)],
    from counter [i] on. *)
Fixpoint ArrayUnshift_loop (i : nat) (arguments : list JSValueRef) : M unit :=
  match arguments with
  | [] => ret tt
  | argument :: arguments' =>
      target <- lift (to_object_index argument);;
      link_view_insert i target;;;
      ArrayUnshift_loop (S i) arguments'
  end.

Definition ArrayUnshift (thisObject : List) (arguments : list JSValueRef)
  : completion JSValue * List :=
  catch_exception
    (RJSVerifiedMutableArray;;;
     RJSValidateArgumentCountIsAtLeast (length arguments) 1;;;
     ArrayUnshift_loop 0 arguments;;;
     size <- link_view_size;;
     ret (JSValueMakeNumber (Z.of_nat size)))
    thisObject.

Definition ArrayShift (thisObject : List) (arguments : list JSValueRef)
  : completion JSValue * List :=
  catch_exception
    (RJSVerifiedMutableArray;;;
     RJSValidateArgumentCount (length arguments) 0;;;
     size <- List_size;;
     if decide (size = 0) then ret JSValueMakeUndefined
     else
       row <- List_get 0;;
       let obj := RJSObjectCreate row in
       link_view_remove 0;;;
       ret (JSValueOfObject obj))
    thisObject.

(** The removal loop of [ArraySplice]:
    [for (size_t i = 0; i < remove; i++) { removedObjects[i] = ...list->get(index)...;
    list->link_view->remove(index); }], with [count] rounds left. *)
Fixpoint ArraySplice_remove_loop (count index : nat) : M (list JSObject) :=
  match count with
  | 0 => ret []
  | S count' =>
      row <- List_get index;;
      let obj := RJSObjectCreate row in
      link_view_remove index;;;
      removedObjects <- ArraySplice_remove_loop count' index;;
      ret (obj :: removedObjects)
  end.

(** The insertion loop of [ArraySplice]:
    [for (size_t i = 2; i < argumentCount; i++) list->link_view->insert(index + i - 2, ...)],
    from counter [i] on; the offset is computed in [size_t]. *)
Fixpoint ArraySplice_insert_loop (index : Z) (i : nat) (arguments : list JSValueRef)
  : M unit :=
  match arguments with
  | [] => ret tt
  | argument :: arguments' =>
      target <- lift (to_object_index argument);;
      link_view_insert (Z.to_nat (to_size_t (index + Z.of_nat i - 2))) target;;;
      ArraySplice_insert_loop index (S i) arguments'
  end.

(** [long index = std::min<long>(number, size);
     if (index < 0) index = std::max<long>(size + index, 0);]
    where the number is converted to [long] first, and [size + index] is a
    [size_t] sum converted back to [long]. *)
Definition ArraySplice_index (size : nat) (number : Z) : Z :=
  let index := Z.min (number_to_long number) (to_long (Z.of_nat size)) in
  if decide (index < 0)%Z
  then Z.max (to_long (to_size_t (Z.of_nat size + index))) 0
  else index.

(** [long remove = std::max<long>(number, 0);
     remove = std::min<long>(remove, size - index);]
    where the number is converted to [long] first, and [size - index] is a
    [size_t] difference converted to [long]. *)
Definition ArraySplice_remove (size : nat) (index number : Z) : Z :=
  let remove := Z.max (number_to_long number) 0 in
  Z.min remove (to_long (to_size_t (Z.of_nat size - index))).

(** The last case of the [match] is not reached: the argument count has
    been validated.  The loop bound [i < remove] and the offsets passed to
    [get] and [remove] are [size_t] conversions of the [long] values. *)
Definition ArraySplice (thisObject : List) (arguments : list JSValueRef)
  : completion JSValue * List :=
  catch_exception
    (RJSVerifiedMutableArray;;;
     size <- List_size;;
     RJSValidateArgumentCountIsAtLeast (length arguments) 2;;;
     match arguments with
     | argument0 :: argument1 :: inserted =>
         number0 <- lift (RJSValidatedValueToNumber argument0);;
         let index := ArraySplice_index size number0 in
         number1 <- lift (RJSValidatedValueToNumber argument1);;
         let remove := ArraySplice_remove size index number1 in
         removedObjects <-
           ArraySplice_remove_loop (Z.to_nat (to_size_t remove))
                                   (Z.to_nat (to_size_t index));;
         ArraySplice_insert_loop index 2 inserted;;;
         ret (JSObjectMakeArray removedObjects)
     | _ => throw ArgumentCountError
     end)
    thisObject.

End RJSArray.

Arguments ArrayGetProperty object propertyName : simpl never.
Arguments ArrayPropertyNames object : simpl never.
Arguments ArraySetProperty {JSValueRef} to_object_index object propertyName value.
Arguments ArrayPush {JSValueRef} to_object_index thisObject arguments.
Arguments ArrayPop {JSValueRef} thisObject arguments.
Arguments ArrayUnshift {JSValueRef} to_object_index thisObject arguments.
Arguments ArrayShift {JSValueRef} thisObject arguments.
Arguments ArraySplice {JSValueRef} to_object_index RJSValidatedValueToNumber
  thisObject arguments.
Arguments ArrayPush_loop {JSValueRef} to_object_index arguments.
Arguments ArrayUnshift_loop {JSValueRef} to_object_index i arguments.
Arguments ArraySplice_insert_loop {JSValueRef} to_object_index index i arguments.

(** ** Successful coercion of a run of arguments *)

(** [to_object_index] succeeds on every argument, giving [rows] in order. *)
Definition coerced {JSValueRef} (to_object_index : JSValueRef → exception + Row)
    (arguments : list JSValueRef) (rows : list Row) : Prop :=
  Forall2 (λ argument row, to_object_index argument = inr row) arguments rows.

(** ** The clamps of Splice, in the words of the specification *)

(** "if negative, compute max(length + start, 0); else min(start, length)" *)
Definition spec_clamped_start (length start : Z) : Z :=
  if decide (start < 0)%Z then Z.max (length + start) 0 else Z.min start length.

(** "deleteCount is clamped to max(0, min(deleteCount, length - start))" *)
Definition spec_clamped_deleteCount (length start deleteCount : Z) : Z :=
  Z.max 0 (Z.min deleteCount (length - start)).

(** The values a [long] holds. *)
Definition is_long (z : Z) : Prop := (- 2 ^ 63 ≤ z < 2 ^ 63)%Z.

(** ** What a computation leaves of the handle *)

(** The computation changes at most the rows: whether the list is attached
    and whether a write transaction is open are the same afterwards. *)
Definition keeps_flags {A} (m : M A) : Prop :=
  ∀ self, is_attached (m self).2 = is_attached self
          ∧ is_in_transaction (m self).2 = is_in_transaction self.

(** ** A host to run the callbacks on *)

(** A small host: numbers, wrapped objects of the list's schema, and
    strings, which are neither.  [to_object_index] accepts the wrapped
    objects, [RJSValidatedValueToNumber] the numbers. *)
Module SampleHost.

Inductive value : Type :=
  | Number (number : Z)
  | Object (row : Row)
  | String (s : string).

Definition to_object_index (v : value) : exception + Row :=
  match v with
  | Object row => inr row
  | _ => inl (CoercionError "not an object of the list's schema")
  end.

Definition to_number (v : value) : exception + Z :=
  match v with
  | Number number => inr number
  | _ => inl (CoercionError "Value not convertible to a number.")
  end.

End SampleHost.

(** * Properties *)

(** ** Running computations *)

Lemma with_link_view_same (self : List) :
  with_link_view self (link_view self) = self.
Proof. by destruct self. Qed.

Lemma with_link_view_twice (self : List) (rows rows' : list Row) :
  with_link_view (with_link_view self rows) rows' = with_link_view self rows'.
Proof. done. Qed.

Lemma bind_inr {A B} (m : M A) (k : A → M B) self a self' :
  m self = (inr a, self') → bind m k self = k a self'.
Proof. unfold bind. by intros ->. Qed.

Lemma bind_inl {A B} (m : M A) (k : A → M B) self e self' :
  m self = (inl e, self') → bind m k self = (inl e, self').
Proof. unfold bind. by intros ->. Qed.

(** ** The attachment guard *)

Lemma RJSVerifiedArray_detached (self : List) :
  is_attached self = false →
  RJSVerifiedArray self = (inl StaleReferenceError, self).
Proof. unfold RJSVerifiedArray, verify_attached. by intros ->. Qed.

Lemma RJSVerifiedArray_attached (self : List) :
  is_attached self = true → RJSVerifiedArray self = (inr tt, self).
Proof. unfold RJSVerifiedArray, verify_attached. by intros ->. Qed.

Lemma RJSVerifiedMutableArray_detached (self : List) :
  is_attached self = false →
  RJSVerifiedMutableArray self = (inl StaleReferenceError, self).
Proof.
  intros Hdetached. unfold RJSVerifiedMutableArray.
  by apply bind_inl, RJSVerifiedArray_detached.
Qed.

Lemma RJSVerifiedMutableArray_no_transaction (self : List) :
  is_attached self = true → is_in_transaction self = false →
  RJSVerifiedMutableArray self = (inl IllegalMutationError, self).
Proof.
  intros Hattached Hread. unfold RJSVerifiedMutableArray.
  rewrite (bind_inr _ _ self tt self) by by apply RJSVerifiedArray_attached.
  by rewrite Hread.
Qed.

Lemma RJSVerifiedMutableArray_writable (self : List) :
  is_attached self = true → is_in_transaction self = true →
  RJSVerifiedMutableArray self = (inr tt, self).
Proof.
  intros Hattached Hwrite. unfold RJSVerifiedMutableArray.
  rewrite (bind_inr _ _ self tt self) by by apply RJSVerifiedArray_attached.
  by rewrite Hwrite.
Qed.

(** A static function whose guard throws stops there. *)
Lemma catch_exception_guard_throws (k : M JSValue) (self : List) (e : exception) :
  RJSVerifiedMutableArray self = (inl e, self) →
  catch_exception (RJSVerifiedMutableArray;;; k) self = (Raised e, self).
Proof.
  intros Hguard. unfold catch_exception.
  by rewrite (bind_inl _ _ self e self).
Qed.

Lemma catch_exception_guard_passes (k : M JSValue) (self : List) :
  is_attached self = true → is_in_transaction self = true →
  catch_exception (RJSVerifiedMutableArray;;; k) self = catch_exception k self.
Proof.
  intros Hattached Hwrite. unfold catch_exception.
  by rewrite (bind_inr _ _ self tt self)
    by by apply RJSVerifiedMutableArray_writable.
Qed.

(** ** The loops of Append and Prepend *)

(** One round of a loop whose argument coerces, by [Hrow]. *)
Ltac coerce_step Hrow :=
  unfold bind at 1, lift; rewrite Hrow; unfold bind at 1.

Section Loops.
Context {JSValueRef : Type} (to_object_index : JSValueRef → exception + Row).

Lemma coerced_length arguments rows :
  coerced to_object_index arguments rows → length arguments = length rows.
Proof. apply Forall2_length. Qed.

(** The append loop, up to the first argument that fails to coerce, if any. *)
Lemma ArrayPush_loop_coerced arguments rows self :
  coerced to_object_index arguments rows →
  ArrayPush_loop to_object_index arguments self
  = (inr tt, with_link_view self (link_view self ++ rows)).
Proof.
  intros Hrows. revert self.
  induction Hrows as [|argument row arguments rows Hrow _ IH]; intros self; simpl.
  - by rewrite app_nil_r, with_link_view_same.
  - coerce_step Hrow. unfold link_view_add. rewrite IH. simpl.
    by rewrite <- app_assoc.
Qed.

Lemma ArrayPush_loop_failure before argument after rows e self :
  coerced to_object_index before rows →
  to_object_index argument = inl e →
  ArrayPush_loop to_object_index (before ++ argument :: after) self
  = (inl e, with_link_view self (link_view self ++ rows)).
Proof.
  intros Hrows Hfail. revert self.
  induction Hrows as [|argument' row before rows Hrow _ IH]; intros self; simpl.
  - unfold bind, lift. rewrite Hfail.
    by rewrite app_nil_r, with_link_view_same.
  - coerce_step Hrow. unfold link_view_add. rewrite IH. simpl.
    by rewrite <- app_assoc.
Qed.

(** Inserting [row] at offset [i] and then [rows] from offset [S i] on is
    inserting [row :: rows] at offset [i]. *)
Lemma insert_run_step (i : nat) (row : Row) (rows l : list Row) :
  i ≤ length l →
  take (S i) (take i l ++ row :: drop i l) ++ rows
    ++ drop (S i) (take i l ++ row :: drop i l)
  = take i l ++ (row :: rows) ++ drop i l.
Proof.
  intros Hi.
  assert (Hlen : length (take i l) = i) by by apply length_take_le.
  replace (S i) with (i + 1) by lia.
  rewrite take_app_add', drop_app_add' by done. simpl.
  by rewrite take_0, <- app_assoc.
Qed.

Lemma ArrayUnshift_loop_coerced arguments rows i self :
  coerced to_object_index arguments rows →
  i ≤ length (link_view self) →
  ArrayUnshift_loop to_object_index i arguments self
  = (inr tt, with_link_view self
               (take i (link_view self) ++ rows ++ drop i (link_view self))).
Proof.
  intros Hrows. revert i self.
  induction Hrows as [|argument row arguments rows Hrow _ IH]; intros i self Hi; simpl.
  - by rewrite take_drop, with_link_view_same.
  - coerce_step Hrow. unfold link_view_insert. rewrite IH; simpl.
    + by rewrite insert_run_step.
    + rewrite length_app, length_take_le by done. simpl.
      rewrite length_drop. lia.
Qed.

Lemma ArrayUnshift_loop_failure before argument after rows e i self :
  coerced to_object_index before rows →
  to_object_index argument = inl e →
  i ≤ length (link_view self) →
  ArrayUnshift_loop to_object_index i (before ++ argument :: after) self
  = (inl e, with_link_view self
              (take i (link_view self) ++ rows ++ drop i (link_view self))).
Proof.
  intros Hrows Hfail. revert i self.
  induction Hrows as [|argument' row before rows Hrow _ IH]; intros i self Hi; simpl.
  - unfold bind, lift. rewrite Hfail.
    by rewrite take_drop, with_link_view_same.
  - coerce_step Hrow. unfold link_view_insert. rewrite IH; simpl.
    + by rewrite insert_run_step.
    + rewrite length_app, length_take_le by done. simpl.
      rewrite length_drop. lia.
Qed.

End Loops.

(** ** Append and Prepend *)

Section Append_Prepend.
Context {JSValueRef : Type} (to_object_index : JSValueRef → exception + Row).
Implicit Types (thisObject : List) (arguments : list JSValueRef) (rows : list Row).

(** C6.  On an attached list inside a write transaction, [ArrayPush] with at
    least one argument, all of which coerce, appends the coerced values at
    the end in argument order, leaves the first L elements as they were and
    returns the new length L + n; with no argument it fails with
    [ArgumentCountError] and changes nothing. *)
Theorem ArrayPush_appends thisObject arguments rows :
  is_attached thisObject = true →
  is_in_transaction thisObject = true →
  coerced to_object_index arguments rows →
  (1 ≤ length arguments →
   ArrayPush to_object_index thisObject arguments
   = (Returned (JSValueMakeNumber
        (Z.of_nat (length (link_view thisObject) + length arguments))),
      with_link_view thisObject (link_view thisObject ++ rows)))
  ∧ ArrayPush to_object_index thisObject []
    = (Raised ArgumentCountError, thisObject).
Proof.
  intros Hattached Hwrite Hrows. unfold ArrayPush. split.
  - intros Hcount. rewrite catch_exception_guard_passes by done.
    unfold catch_exception, RJSValidateArgumentCountIsAtLeast.
    rewrite decide_True by done.
    unfold bind at 1, ret at 1.
    unfold bind at 1. rewrite (ArrayPush_loop_coerced _ _ rows) by done.
    unfold bind, link_view_size, ret. simpl.
    by rewrite length_app, (coerced_length _ _ _ Hrows).
  - rewrite catch_exception_guard_passes by done.
    unfold catch_exception, RJSValidateArgumentCountIsAtLeast.
    by rewrite decide_False by (simpl; lia).
Qed.

(** C7.  On an attached list inside a write transaction, [ArrayUnshift] with
    at least one argument, all of which coerce, leaves the coerced values at
    the leading offsets in argument order, followed by the elements that
    were there, and returns the new length; with no argument it fails with
    [ArgumentCountError] and changes nothing. *)
Theorem ArrayUnshift_prepends thisObject arguments rows :
  is_attached thisObject = true →
  is_in_transaction thisObject = true →
  coerced to_object_index arguments rows →
  (1 ≤ length arguments →
   ArrayUnshift to_object_index thisObject arguments
   = (Returned (JSValueMakeNumber
        (Z.of_nat (length arguments + length (link_view thisObject)))),
      with_link_view thisObject (rows ++ link_view thisObject)))
  ∧ ArrayUnshift to_object_index thisObject []
    = (Raised ArgumentCountError, thisObject).
Proof.
  intros Hattached Hwrite Hrows. unfold ArrayUnshift. split.
  - intros Hcount. rewrite catch_exception_guard_passes by done.
    unfold catch_exception, RJSValidateArgumentCountIsAtLeast.
    rewrite decide_True by done.
    unfold bind at 1, ret at 1.
    unfold bind at 1. rewrite (ArrayUnshift_loop_coerced _ _ rows) by (done || lia).
    unfold bind, link_view_size, ret. simpl.
    by rewrite drop_0, length_app, (coerced_length _ _ _ Hrows).
  - rewrite catch_exception_guard_passes by done.
    unfold catch_exception, RJSValidateArgumentCountIsAtLeast.
    by rewrite decide_False by (simpl; lia).
Qed.

(** C9.  If the coercion of the k-th argument fails, after k - 1 arguments
    that coerced, [ArrayPush] and [ArrayUnshift] raise the coercion error
    and leave the list with the first k - 1 values applied (at the end,
    respectively at the leading offsets, in argument order) and none of the
    later ones: nothing is rolled back. *)
Theorem coercion_failure_keeps_applied_arguments
    thisObject arguments argument arguments' rows exp :
  is_attached thisObject = true →
  is_in_transaction thisObject = true →
  coerced to_object_index arguments rows →
  to_object_index argument = inl exp →
  ArrayPush to_object_index thisObject (arguments ++ argument :: arguments')
  = (Raised exp, with_link_view thisObject (link_view thisObject ++ rows))
  ∧ ArrayUnshift to_object_index thisObject (arguments ++ argument :: arguments')
    = (Raised exp, with_link_view thisObject (rows ++ link_view thisObject)).
Proof.
  intros Hattached Hwrite Hrows Hfail.
  assert (Hcount : 1 ≤ length (arguments ++ argument :: arguments'))
    by (rewrite length_app; simpl; lia).
  unfold ArrayPush, ArrayUnshift. split.
  - rewrite catch_exception_guard_passes by done.
    unfold catch_exception, RJSValidateArgumentCountIsAtLeast.
    rewrite decide_True by done.
    unfold bind at 1, ret at 1.
    by rewrite (bind_inl _ _ _ _ _ (ArrayPush_loop_failure _ _ _ arguments' _ _ _ Hrows Hfail)).
  - rewrite catch_exception_guard_passes by done.
    unfold catch_exception, RJSValidateArgumentCountIsAtLeast.
    rewrite decide_True by done.
    unfold bind at 1, ret at 1.
    rewrite (bind_inl _ _ _ exp
               (with_link_view thisObject (rows ++ link_view thisObject))).
    + done.
    + rewrite (ArrayUnshift_loop_failure _ _ _ arguments' rows exp) by (done || lia).
      by rewrite drop_0.
Qed.

End Append_Prepend.

(** ** RemoveLast and RemoveFirst *)

Section Pop_Shift.
Context {JSValueRef : Type}.
Implicit Types (thisObject : List) (arguments : list JSValueRef) (rows : list Row).

Lemma ArrayPop_empty thisObject :
  is_attached thisObject = true → is_in_transaction thisObject = true →
  link_view thisObject = [] →
  ArrayPop (JSValueRef := JSValueRef) thisObject []
  = (Returned JSValueMakeUndefined, thisObject).
Proof.
  intros Hattached Hwrite Hempty. unfold ArrayPop.
  rewrite catch_exception_guard_passes by done.
  unfold catch_exception, bind, RJSValidateArgumentCount, List_size, link_view_size.
  simpl. by rewrite Hempty.
Qed.

Lemma ArrayShift_empty thisObject :
  is_attached thisObject = true → is_in_transaction thisObject = true →
  link_view thisObject = [] →
  ArrayShift (JSValueRef := JSValueRef) thisObject []
  = (Returned JSValueMakeUndefined, thisObject).
Proof.
  intros Hattached Hwrite Hempty. unfold ArrayShift.
  rewrite catch_exception_guard_passes by done.
  unfold catch_exception, bind, RJSValidateArgumentCount, List_size, link_view_size.
  simpl. by rewrite Hempty.
Qed.

Lemma ArrayPop_last thisObject rows row :
  is_attached thisObject = true → is_in_transaction thisObject = true →
  link_view thisObject = rows ++ [row] →
  ArrayPop (JSValueRef := JSValueRef) thisObject []
  = (Returned (JSValueOfObject (RJSObjectCreate row)), with_link_view thisObject rows).
Proof.
  intros Hattached Hwrite Hrows. unfold ArrayPop.
  rewrite catch_exception_guard_passes by done.
  destruct thisObject as [attached in_transaction link_view0].
  simpl in Hrows. subst link_view0.
  unfold catch_exception, bind, RJSValidateArgumentCount, List_size, link_view_size,
    List_get, link_view_remove, with_link_view.
  simpl. rewrite length_app. simpl.
  rewrite decide_False by lia.
  replace (length rows + 1 - 1) with (length rows) by lia.
  cbn [link_view]. rewrite list_lookup_middle by done.
  cbn [link_view is_attached is_in_transaction ret].
  by rewrite delete_middle, app_nil_r.
Qed.

Lemma ArrayShift_first thisObject row rows :
  is_attached thisObject = true → is_in_transaction thisObject = true →
  link_view thisObject = row :: rows →
  ArrayShift (JSValueRef := JSValueRef) thisObject []
  = (Returned (JSValueOfObject (RJSObjectCreate row)), with_link_view thisObject rows).
Proof.
  intros Hattached Hwrite Hrows. unfold ArrayShift.
  rewrite catch_exception_guard_passes by done.
  destruct thisObject as [attached in_transaction link_view0].
  simpl in Hrows. subst link_view0.
  unfold catch_exception, bind, RJSValidateArgumentCount, List_size, link_view_size,
    List_get, link_view_remove, with_link_view.
  done.
Qed.

(** C8.  On an attached list inside a write transaction: [ArrayPop] and
    [ArrayShift] on an empty list return undefined, raise nothing and leave
    the list empty; on a non-empty list [ArrayPop] returns the element at
    the last offset and [ArrayShift] the element at offset 0, and each
    removes exactly that slot; so [ArrayShift] and then [ArrayPop] on
    [x; y; z] return x, then z, and leave [y]. *)
Theorem ArrayPop_ArrayShift_remove_one_end thisObject :
  is_attached thisObject = true →
  is_in_transaction thisObject = true →
  (link_view thisObject = [] →
   ArrayPop (JSValueRef := JSValueRef) thisObject []
   = (Returned JSValueMakeUndefined, thisObject)
   ∧ ArrayShift (JSValueRef := JSValueRef) thisObject []
     = (Returned JSValueMakeUndefined, thisObject))
  ∧ (∀ rows row, link_view thisObject = rows ++ [row] →
     ArrayPop (JSValueRef := JSValueRef) thisObject []
     = (Returned (JSValueOfObject (RJSObjectCreate row)),
        with_link_view thisObject rows))
  ∧ (∀ row rows, link_view thisObject = row :: rows →
     ArrayShift (JSValueRef := JSValueRef) thisObject []
     = (Returned (JSValueOfObject (RJSObjectCreate row)),
        with_link_view thisObject rows))
  ∧ (∀ x y z, link_view thisObject = [x; y; z] →
     ∃ thisObject',
       ArrayShift (JSValueRef := JSValueRef) thisObject []
       = (Returned (JSValueOfObject (RJSObjectCreate x)), thisObject')
       ∧ ArrayPop (JSValueRef := JSValueRef) thisObject' []
         = (Returned (JSValueOfObject (RJSObjectCreate z)),
            with_link_view thisObject [y])).
Proof.
  intros Hattached Hwrite. repeat split.
  - by apply ArrayPop_empty.
  - by apply ArrayShift_empty.
  - intros rows row Hrows. by apply ArrayPop_last.
  - intros row rows Hrows. by apply ArrayShift_first.
  - intros x y z Hrows. exists (with_link_view thisObject [y; z]). split.
    + by apply ArrayShift_first.
    + by apply (ArrayPop_last (with_link_view thisObject [y; z]) [y] z).
Qed.

(** The argument count is validated right after the guard, before the size
    is read: when [RJSValidateArgumentCount] throws, [ArrayPop] and
    [ArrayShift] raise its exception, and no element has been read or
    removed. *)
Lemma ArrayPop_ArrayShift_validate_first thisObject arguments exp :
  is_attached thisObject = true →
  is_in_transaction thisObject = true →
  RJSValidateArgumentCount (length arguments) 0 thisObject = (inl exp, thisObject) →
  ArrayPop thisObject arguments = (Raised exp, thisObject)
  ∧ ArrayShift thisObject arguments = (Raised exp, thisObject).
Proof.
  intros Hattached Hwrite Hcount. unfold ArrayPop, ArrayShift.
  rewrite !catch_exception_guard_passes by done.
  unfold catch_exception. by rewrite !(bind_inl _ _ _ _ _ Hcount).
Qed.

End Pop_Shift.

(** ** The guards of every entry point *)

Section Guards.
Context {JSValueRef : Type}.
Context (to_object_index : JSValueRef → exception + Row).
Context (RJSValidatedValueToNumber : JSValueRef → exception + Z).
Implicit Types (object : List) (arguments : list JSValueRef) (value : JSValueRef).

Lemma ArraySetProperty_guard_throws object propertyName value exp :
  RJSVerifiedMutableArray object = (inl exp, object) →
  exp ≠ invalid_argument →
  ArraySetProperty to_object_index object propertyName value = (Raised exp, object).
Proof.
  intros Hguard Hexp. unfold ArraySetProperty, ArraySetProperty_try.
  rewrite (bind_inl _ _ _ _ _ Hguard). by destruct exp.
Qed.

(** C3.  On an attached list with no write transaction open, every
    mutation ([ArraySetProperty], on an index or any other name,
    [ArrayPush], [ArrayPop], [ArrayShift], [ArrayUnshift], [ArraySplice])
    fails with [IllegalMutationError] and leaves the list as it was. *)
Theorem mutation_outside_transaction_is_rejected
    object propertyName value arguments :
  is_attached object = true →
  is_in_transaction object = false →
  ArraySetProperty to_object_index object propertyName value
  = (Raised IllegalMutationError, object)
  ∧ ArrayPush to_object_index object arguments
    = (Raised IllegalMutationError, object)
  ∧ ArrayPop object arguments = (Raised IllegalMutationError, object)
  ∧ ArrayShift object arguments = (Raised IllegalMutationError, object)
  ∧ ArrayUnshift to_object_index object arguments
    = (Raised IllegalMutationError, object)
  ∧ ArraySplice to_object_index RJSValidatedValueToNumber object arguments
    = (Raised IllegalMutationError, object).
Proof.
  intros Hattached Hread.
  pose proof (RJSVerifiedMutableArray_no_transaction object Hattached Hread) as Hguard.
  split; [by apply ArraySetProperty_guard_throws|].
  unfold ArrayPush, ArrayPop, ArrayShift, ArrayUnshift, ArraySplice.
  repeat split; by apply catch_exception_guard_throws.
Qed.

(** C4.  On a detached list every entry point fails with
    [StaleReferenceError] and leaves the list as it was; the exception of
    [ArrayPropertyNames], which has no [try] block, leaves the callback. *)
Theorem detached_list_is_rejected object propertyName value arguments :
  is_attached object = false →
  ArrayGetProperty object propertyName = (Raised StaleReferenceError, object)
  ∧ ArraySetProperty to_object_index object propertyName value
    = (Raised StaleReferenceError, object)
  ∧ ArrayPropertyNames object = inl StaleReferenceError
  ∧ ArrayPush to_object_index object arguments
    = (Raised StaleReferenceError, object)
  ∧ ArrayPop object arguments = (Raised StaleReferenceError, object)
  ∧ ArrayShift object arguments = (Raised StaleReferenceError, object)
  ∧ ArrayUnshift to_object_index object arguments
    = (Raised StaleReferenceError, object)
  ∧ ArraySplice to_object_index RJSValidatedValueToNumber object arguments
    = (Raised StaleReferenceError, object).
Proof.
  intros Hdetached.
  pose proof (RJSVerifiedArray_detached object Hdetached) as Hread.
  pose proof (RJSVerifiedMutableArray_detached object Hdetached) as Hwrite.
  split; [|split; [|split]].
  - unfold ArrayGetProperty, ArrayGetProperty_try.
    by rewrite (bind_inl _ _ _ _ _ Hread).
  - by apply ArraySetProperty_guard_throws.
  - unfold ArrayPropertyNames.
    by rewrite (bind_inl _ _ _ _ _ Hread).
  - unfold ArrayPush, ArrayPop, ArrayShift, ArrayUnshift, ArraySplice.
    repeat split; by apply catch_exception_guard_throws.
Qed.

(** C1 (amended).  [ArraySetProperty] on "length" fails for every
    value and leaves the list as it was; the guard comes first, so the error
    is [ReadOnlyPropertyError] when the list is attached and a write
    transaction is open, [IllegalMutationError] when it is attached and no
    write transaction is open, and [StaleReferenceError] when it is
    detached. *)
Theorem ArraySetProperty_length_fails object value :
  ArraySetProperty to_object_index object "length" value
  = (Raised (if is_attached object
             then if is_in_transaction object
                  then ReadOnlyPropertyError
                  else IllegalMutationError
             else StaleReferenceError),
     object).
Proof.
  destruct (is_attached object) eqn:Hattached.
  - destruct (is_in_transaction object) eqn:Hwrite.
    + unfold ArraySetProperty, ArraySetProperty_try.
      by rewrite (bind_inr _ _ _ _ _
                    (RJSVerifiedMutableArray_writable object Hattached Hwrite)).
    + apply ArraySetProperty_guard_throws; [|done].
      by apply RJSVerifiedMutableArray_no_transaction.
  - apply ArraySetProperty_guard_throws; [|done].
    by apply RJSVerifiedMutableArray_detached.
Qed.

End Guards.

(** With the list attached and no write transaction open, the write to
    "length" is rejected with [IllegalMutationError], not with
    [ReadOnlyPropertyError]: the error does depend on the transaction
    state. *)
Lemma ArraySetProperty_length_outside_transaction :
  ArraySetProperty SampleHost.to_object_index
    (mkList true false [1; 2]) "length" (SampleHost.Number 5)
  = (Raised IllegalMutationError, mkList true false [1; 2])
  ∧ fst (ArraySetProperty SampleHost.to_object_index
           (mkList true false [1; 2]) "length" (SampleHost.Number 5))
    ≠ Raised ReadOnlyPropertyError.
Proof. split; [reflexivity | discriminate]. Qed.

(** ** Get *)

Lemma RJSValidatedPositiveIndex_index_name (i : nat) :
  RJSValidatedPositiveIndex (index_name i) = inr i.
Proof.
  unfold RJSValidatedPositiveIndex, index_name.
  rewrite NilZero.usu.
  - by rewrite Unsigned.of_to.
  - intros Hnil. pose proof (f_equal Nat.of_uint Hnil) as Hzero.
    rewrite Unsigned.of_to in Hzero. simpl in Hzero. subst i.
    discriminate Hnil.
Qed.

Lemma index_name_not_length (i : nat) : index_name i ≠ "length"%string.
Proof.
  intros Hname. pose proof (RJSValidatedPositiveIndex_index_name i) as Hindex.
  rewrite Hname in Hindex. discriminate Hindex.
Qed.

(** C5.  On an attached list of length L: [ArrayGetProperty] on the name of
    an index i < L returns the wrapper of the element stored at offset i; on
    the name of an index i ≥ L it returns undefined and raises nothing; on
    "length" it returns L.  The list is left as it was. *)
Theorem ArrayGetProperty_index_and_length (object : List) :
  is_attached object = true →
  (∀ i row, link_view object !! i = Some row →
     ArrayGetProperty object (index_name i)
     = (Returned (JSValueOfObject (RJSObjectCreate row)), object))
  ∧ (∀ i, length (link_view object) ≤ i →
     ArrayGetProperty object (index_name i)
     = (Returned JSValueMakeUndefined, object))
  ∧ ArrayGetProperty object "length"
    = (Returned (JSValueMakeNumber (Z.of_nat (length (link_view object)))), object).
Proof.
  intros Hattached.
  destruct object as [attached in_transaction rows].
  simpl in Hattached. subst attached.
  unfold ArrayGetProperty, ArrayGetProperty_try, bind, RJSVerifiedArray,
    verify_attached, List_size, link_view_size, lift, List_get, ret.
  cbn [is_attached link_view].
  repeat split.
  - intros i row Hrow.
    rewrite decide_False by apply index_name_not_length.
    rewrite RJSValidatedPositiveIndex_index_name. simpl. by rewrite Hrow.
  - intros i Hi.
    rewrite decide_False by apply index_name_not_length.
    rewrite RJSValidatedPositiveIndex_index_name. simpl.
    by rewrite lookup_ge_None_2.
Qed.

(** ** Splice *)

Section Conversions.
Local Open Scope Z_scope.

Lemma to_long_is_long (z : Z) : is_long z → to_long z = z.
Proof.
  unfold is_long, to_long. intros Hz.
  rewrite Z.mod_small by lia. lia.
Qed.

Lemma number_to_long_is_long (number : Z) :
  is_long number → number_to_long number = number.
Proof. unfold is_long, number_to_long. intros Hnumber. by rewrite decide_True. Qed.

Lemma number_to_long_range (number : Z) : is_long (number_to_long number).
Proof. unfold is_long, number_to_long. case_decide; lia. Qed.

Lemma to_size_t_small (z : Z) : 0 ≤ z < 2 ^ 64 → to_size_t z = z.
Proof. unfold to_size_t. intros Hz. by rewrite Z.mod_small. Qed.

Lemma to_long_to_size_t (z : Z) : to_long (to_size_t z) = to_long z.
Proof. unfold to_long, to_size_t. by rewrite Zplus_mod_idemp_l. Qed.

(** The index computed by [ArraySplice] is an offset of the list whatever
    the number is, as long as the size fits in a [long]. *)
Lemma ArraySplice_index_bounds (size : nat) (number : Z) :
  Z.of_nat size < 2 ^ 63 →
  0 ≤ ArraySplice_index size number ≤ Z.of_nat size.
Proof.
  intros Hsize. unfold ArraySplice_index.
  rewrite to_long_to_size_t.
  rewrite (to_long_is_long (Z.of_nat size)) by (unfold is_long; lia).
  pose proof (number_to_long_range number) as Hlong.
  case_decide as Hneg.
  - rewrite to_long_is_long by (unfold is_long in *; lia). lia.
  - lia.
Qed.

Lemma ArraySplice_index_spec (size : nat) (number : Z) :
  Z.of_nat size < 2 ^ 63 → is_long number →
  ArraySplice_index size number = spec_clamped_start (Z.of_nat size) number.
Proof.
  intros Hsize Hnumber. unfold ArraySplice_index, spec_clamped_start.
  rewrite to_long_to_size_t.
  rewrite (to_long_is_long (Z.of_nat size)) by (unfold is_long; lia).
  rewrite (number_to_long_is_long number) by done.
  unfold is_long in Hnumber.
  repeat case_decide; try lia.
  rewrite to_long_is_long by (unfold is_long; lia). lia.
Qed.

Lemma ArraySplice_remove_bounds (size : nat) (index number : Z) :
  Z.of_nat size < 2 ^ 63 → 0 ≤ index ≤ Z.of_nat size →
  0 ≤ ArraySplice_remove size index number ≤ Z.of_nat size - index.
Proof.
  intros Hsize Hindex. unfold ArraySplice_remove.
  rewrite to_long_to_size_t, (to_long_is_long (_ - _)) by (unfold is_long; lia).
  lia.
Qed.

Lemma ArraySplice_remove_spec (size : nat) (index number : Z) :
  Z.of_nat size < 2 ^ 63 → 0 ≤ index ≤ Z.of_nat size → is_long number →
  ArraySplice_remove size index number
  = spec_clamped_deleteCount (Z.of_nat size) index number.
Proof.
  intros Hsize Hindex Hnumber. unfold ArraySplice_remove, spec_clamped_deleteCount.
  rewrite to_long_to_size_t, (to_long_is_long (_ - _)) by (unfold is_long; lia).
  rewrite (number_to_long_is_long number) by done. lia.
Qed.

End Conversions.

(** The removal loop takes [count] elements out, all from offset [index],
    and collects their wrappers in removal order. *)
Lemma ArraySplice_remove_loop_removes (count index : nat) (self : List) :
  index + count ≤ length (link_view self) →
  ArraySplice_remove_loop count index self
  = (inr (RJSObjectCreate <$> take count (drop index (link_view self))),
     with_link_view self
       (take index (link_view self) ++ drop (index + count) (link_view self))).
Proof.
  revert self. induction count as [|count IH]; intros self Hcount; simpl.
  - by rewrite Nat.add_0_r, take_drop, with_link_view_same.
  - destruct (lookup_lt_is_Some_2 (link_view self) index) as [row Hrow]; [lia|].
    assert (Hlen : length (take index (link_view self)) = index)
      by (apply length_take_le; lia).
    unfold bind at 1, List_get. rewrite Hrow.
    unfold bind at 1, link_view_remove.
    unfold bind at 1. rewrite IH by (simpl; rewrite length_delete by done; lia).
    simpl. rewrite delete_take_drop.
    rewrite drop_app_length', take_app_length', (drop_app_add' _ _ index) by done.
    rewrite drop_drop, (drop_S _ _ _ Hrow). simpl.
    by replace (index + S count) with (S (index + count)) by lia.
Qed.

Section Splice.
Context {JSValueRef : Type}.
Context (to_object_index : JSValueRef → exception + Row).
Context (RJSValidatedValueToNumber : JSValueRef → exception + Z).
Implicit Types (thisObject self : List) (rows : list Row).

(** The insertion loop puts the coerced values, in argument order, at the
    offset [index]; its counter [i] starts at 2. *)
Lemma ArraySplice_insert_loop_coerced inserted rows (index : Z) (i : nat) self :
  coerced to_object_index inserted rows →
  (0 ≤ index)%Z → 2 ≤ i →
  Z.to_nat index + (i - 2) ≤ length (link_view self) →
  (Z.of_nat (Z.to_nat index + (i - 2) + length inserted) < 2 ^ 64)%Z →
  ArraySplice_insert_loop to_object_index index i inserted self
  = (inr tt, with_link_view self
               (take (Z.to_nat index + (i - 2)) (link_view self) ++ rows
                ++ drop (Z.to_nat index + (i - 2)) (link_view self))).
Proof.
  intros Hrows Hindex. revert i self.
  induction Hrows as [|argument row inserted rows Hrow _ IH];
    intros i self Hi Hoffset Hfits; simpl.
  - by rewrite take_drop, with_link_view_same.
  - coerce_step Hrow. unfold link_view_insert.
    replace (Z.to_nat (to_size_t (index + Z.of_nat i - 2)))
      with (Z.to_nat index + (i - 2)).
    2:{ simpl in Hfits. rewrite to_size_t_small by lia. lia. }
    set (offset := Z.to_nat index + (i - 2)) in *.
    rewrite IH; simpl.
    + replace (Z.to_nat index + (i - 1)) with (S offset) by (unfold offset; lia).
      by rewrite insert_run_step.
    + lia.
    + rewrite length_app, length_take_le by done. simpl.
      rewrite length_drop. lia.
    + simpl in Hfits. lia.
Qed.


(** [ArraySplice] up to its insertion loop: the guard, the argument count,
    the two numbers, the clamps and the removal loop. *)
Lemma ArraySplice_after_removal
    thisObject (start deleteCount : JSValueRef) (inserted : list JSValueRef)
    (number0 number1 : Z) :
  is_attached thisObject = true →
  is_in_transaction thisObject = true →
  (Z.of_nat (length (link_view thisObject)) < 2 ^ 63)%Z →
  RJSValidatedValueToNumber start = inr number0 → is_long number0 →
  RJSValidatedValueToNumber deleteCount = inr number1 → is_long number1 →
  let size := Z.of_nat (length (link_view thisObject)) in
  let index := Z.to_nat (spec_clamped_start size number0) in
  let remove :=
    Z.to_nat (spec_clamped_deleteCount size (spec_clamped_start size number0) number1) in
  let removed := take remove (drop index (link_view thisObject)) in
  let kept :=
    take index (link_view thisObject) ++ drop (index + remove) (link_view thisObject) in
  index + remove ≤ length (link_view thisObject)
  ∧ ArraySplice_remove_loop remove index thisObject
    = (inr (RJSObjectCreate <$> removed), with_link_view thisObject kept)
  ∧ ArraySplice to_object_index RJSValidatedValueToNumber thisObject
      (start :: deleteCount :: inserted)
    = catch_exception
        (ArraySplice_insert_loop to_object_index (Z.of_nat index) 2 inserted;;;
         ret (JSObjectMakeArray (RJSObjectCreate <$> removed)))
        (with_link_view thisObject kept).
Proof.
  intros Hattached Hwrite Hsize Hnumber0 Hlong0 Hnumber1 Hlong1.
  intros size index remove removed kept.
  pose proof (ArraySplice_index_bounds _ number0 Hsize) as Hindex.
  pose proof (ArraySplice_remove_bounds _ _ number1 Hsize Hindex) as Hremove.
  rewrite ArraySplice_index_spec in Hindex, Hremove by done.
  rewrite ArraySplice_remove_spec in Hremove by done.
  fold size in Hindex, Hremove.
  assert (Hrange : index + remove ≤ length (link_view thisObject))
    by (unfold index, remove; lia).
  assert (Hremoved : ArraySplice_remove_loop remove index thisObject
            = (inr (RJSObjectCreate <$> removed), with_link_view thisObject kept))
    by by apply ArraySplice_remove_loop_removes.
  split; [done|]. split; [done|].
  unfold ArraySplice. rewrite catch_exception_guard_passes by done.
  unfold catch_exception, List_size, link_view_size, bind at 1.
  unfold RJSValidateArgumentCountIsAtLeast.
  rewrite decide_True by (simpl; lia).
  unfold bind at 1, ret at 1.
  unfold bind at 1, lift at 1. rewrite Hnumber0.
  unfold bind at 1, lift at 1. rewrite Hnumber1.
  rewrite ArraySplice_index_spec, ArraySplice_remove_spec by done.
  fold size.
  rewrite !to_size_t_small by lia.
  fold index remove.
  unfold bind at 1. rewrite Hremoved.
  by replace (spec_clamped_start size number0) with (Z.of_nat index)
    by (unfold index; lia).
Qed.

(** The list after the removal loop, around the offset [index]. *)
Lemma take_drop_kept (index remove : nat) (l : list Row) :
  index + remove ≤ length l →
  take index (take index l ++ drop (index + remove) l) = take index l
  ∧ drop index (take index l ++ drop (index + remove) l) = drop (index + remove) l
  ∧ length (take index l ++ drop (index + remove) l) = length l - remove.
Proof.
  intros Hrange.
  rewrite take_app_length', drop_app_length', length_app, length_drop;
    rewrite ?length_take_le; try lia.
  repeat split. lia.
Qed.



End Splice.


(** * The entry points on concrete lists *)

Module Examples.
Import SampleHost.


(** Splice(-2, 1) on [0; 1; 2; 3; 4] starts at offset 3, removes [3] and
    leaves [0; 1; 2; 4]. *)
Example ArraySplice_negative_start :
  ArraySplice to_object_index to_number (mkList true true [0; 1; 2; 3; 4])
    [Number (-2); Number 1]
  = (Returned (JSObjectMakeArray [RJSObjectCreate 3]),
     mkList true true [0; 1; 2; 4]).
Proof. reflexivity. Qed.

(** A value that does not coerce, after one that does: the two removals and
    the first insertion stay. *)
Example ArraySplice_partial :
  ArraySplice to_object_index to_number (mkList true true [0; 1; 2; 3; 4])
    [Number 1; Number 2; Object 10; String "b"; Object 11]
  = (Raised (CoercionError "not an object of the list's schema"),
     mkList true true [0; 10; 3; 4]).
Proof. reflexivity. Qed.

Lemma mutation_outside_transaction_is_rejected_witness :
  let object := mkList true false [4; 5] in
  ArraySetProperty to_object_index object "0" (Object 7)
  = (Raised IllegalMutationError, object)
  ∧ ArrayPush to_object_index object [Object 7]
    = (Raised IllegalMutationError, object)
  ∧ ArrayPop object [Object 7] = (Raised IllegalMutationError, object)
  ∧ ArrayShift object [Object 7] = (Raised IllegalMutationError, object)
  ∧ ArrayUnshift to_object_index object [Object 7]
    = (Raised IllegalMutationError, object)
  ∧ ArraySplice to_object_index to_number object [Object 7]
    = (Raised IllegalMutationError, object).
Proof.
  exact (mutation_outside_transaction_is_rejected to_object_index to_number
           (mkList true false [4; 5]) "0" (Object 7) [Object 7] eq_refl eq_refl).
Defined.

Lemma detached_list_is_rejected_witness :
  let object := mkList false true [4; 5] in
  ArrayGetProperty object "0" = (Raised StaleReferenceError, object)
  ∧ ArraySetProperty to_object_index object "0" (Object 7)
    = (Raised StaleReferenceError, object)
  ∧ ArrayPropertyNames object = inl StaleReferenceError
  ∧ ArrayPush to_object_index object [Object 7]
    = (Raised StaleReferenceError, object)
  ∧ ArrayPop object [Object 7] = (Raised StaleReferenceError, object)
  ∧ ArrayShift object [Object 7] = (Raised StaleReferenceError, object)
  ∧ ArrayUnshift to_object_index object [Object 7]
    = (Raised StaleReferenceError, object)
  ∧ ArraySplice to_object_index to_number object [Object 7]
    = (Raised StaleReferenceError, object).
Proof.
  exact (detached_list_is_rejected to_object_index to_number
           (mkList false true [4; 5]) "0" (Object 7) [Object 7] eq_refl).
Defined.

Lemma ArrayGetProperty_index_and_length_witness :
  let object := mkList true false [10; 20; 30] in
  ArrayGetProperty object "1"
  = (Returned (JSValueOfObject (RJSObjectCreate 20)), object)
  ∧ ArrayGetProperty object "7" = (Returned JSValueMakeUndefined, object)
  ∧ ArrayGetProperty object "length" = (Returned (JSValueMakeNumber 3), object).
Proof.
  destruct (ArrayGetProperty_index_and_length (mkList true false [10; 20; 30]) eq_refl)
    as (Hinside & Houtside & Hlength).
  split; [|split].
  - exact (Hinside 1 20 eq_refl).
  - apply (Houtside 7). simpl. lia.
  - exact Hlength.
Defined.

Lemma ArrayPush_appends_witness :
  let thisObject := mkList true true [4; 5] in
  ArrayPush to_object_index thisObject [Object 7; Object 8; Object 9]
  = (Returned (JSValueMakeNumber 5), mkList true true [4; 5; 7; 8; 9])
  ∧ ArrayPush to_object_index thisObject [] = (Raised ArgumentCountError, thisObject).
Proof.
  destruct (ArrayPush_appends to_object_index (mkList true true [4; 5])
              [Object 7; Object 8; Object 9] [7; 8; 9])
    as [Happended Hnone].
  - reflexivity.
  - reflexivity.
  - repeat constructor.
  - split; [|exact Hnone]. apply Happended. simpl. lia.
Defined.

Lemma ArrayUnshift_prepends_witness :
  let thisObject := mkList true true [4; 5] in
  ArrayUnshift to_object_index thisObject [Object 7; Object 8; Object 9]
  = (Returned (JSValueMakeNumber 5), mkList true true [7; 8; 9; 4; 5])
  ∧ ArrayUnshift to_object_index thisObject []
    = (Raised ArgumentCountError, thisObject).
Proof.
  destruct (ArrayUnshift_prepends to_object_index (mkList true true [4; 5])
              [Object 7; Object 8; Object 9] [7; 8; 9])
    as [Hprepended Hnone].
  - reflexivity.
  - reflexivity.
  - repeat constructor.
  - split; [|exact Hnone]. apply Hprepended. simpl. lia.
Defined.

Lemma ArrayPop_ArrayShift_remove_one_end_witness :
  ArrayShift (JSValueRef := value) (mkList true true [1; 2; 3]) []
  = (Returned (JSValueOfObject (RJSObjectCreate 1)), mkList true true [2; 3])
  ∧ ArrayPop (JSValueRef := value) (mkList true true [2; 3]) []
    = (Returned (JSValueOfObject (RJSObjectCreate 3)), mkList true true [2])
  ∧ ArrayPop (JSValueRef := value) (mkList true true []) []
    = (Returned JSValueMakeUndefined, mkList true true [])
  ∧ ArrayShift (JSValueRef := value) (mkList true true []) []
    = (Returned JSValueMakeUndefined, mkList true true []).
Proof.
  destruct (ArrayPop_ArrayShift_remove_one_end (JSValueRef := value)
              (mkList true true [1; 2; 3]) eq_refl eq_refl)
    as (_ & _ & Hfirst & _).
  destruct (ArrayPop_ArrayShift_remove_one_end (JSValueRef := value)
              (mkList true true [2; 3]) eq_refl eq_refl)
    as (_ & Hlast & _ & _).
  destruct (ArrayPop_ArrayShift_remove_one_end (JSValueRef := value)
              (mkList true true []) eq_refl eq_refl)
    as (Hempty & _ & _ & _).
  split; [|split].
  - exact (Hfirst 1 [2; 3] eq_refl).
  - exact (Hlast [2] 3 eq_refl).
  - exact (Hempty eq_refl).
Defined.

Lemma coercion_failure_keeps_applied_arguments_witness :
  let thisObject := mkList true true [4; 5] in
  ArrayPush to_object_index thisObject [Object 7; Object 8; String "c"; Object 9]
  = (Raised (CoercionError "not an object of the list's schema"),
     mkList true true [4; 5; 7; 8])
  ∧ ArrayUnshift to_object_index thisObject
      [Object 7; Object 8; String "c"; Object 9]
    = (Raised (CoercionError "not an object of the list's schema"),
       mkList true true [7; 8; 4; 5]).
Proof.
  apply (coercion_failure_keeps_applied_arguments to_object_index
           (mkList true true [4; 5]) [Object 7; Object 8] (String "c") [Object 9]
           [7; 8] (CoercionError "not an object of the list's schema")).
  - reflexivity.
  - reflexivity.
  - repeat constructor.
  - reflexivity.
Defined.

End Examples.

(** * Further properties of the callbacks *)

(** ** Reading *)

(** X1.  [ArrayGetProperty] is read-only: whatever the name and the state of the
    list, found or not, raised or not, the list is left exactly as it was;
    so asking again gives the same answer. *)
Theorem ArrayGetProperty_read_only (object : List) (propertyName : string) :
  (ArrayGetProperty object propertyName).2 = object
  ∧ ArrayGetProperty (ArrayGetProperty object propertyName).2 propertyName
    = ArrayGetProperty object propertyName.
Proof.
  assert (Hsame : (ArrayGetProperty object propertyName).2 = object).
  { unfold ArrayGetProperty, ArrayGetProperty_try, bind, RJSVerifiedArray,
      verify_attached, List_size, link_view_size, lift, List_get, ret.
    destruct (is_attached object); [|done].
    case_decide; [done|].
    destruct (RJSValidatedPositiveIndex propertyName) as [[]|row_ndx]; try done.
    by destruct (link_view object !! row_ndx). }
  split; [done|]. by rewrite Hsame.
Qed.

(** X2.  Reading needs no write transaction: the answers of [ArrayGetProperty]
    and [ArrayPropertyNames] do not depend on whether one is open. *)
Theorem reads_ignore_transaction
    (attached in_transaction in_transaction' : bool) (rows : list Row)
    (propertyName : string) :
  (ArrayGetProperty (mkList attached in_transaction rows) propertyName).1
  = (ArrayGetProperty (mkList attached in_transaction' rows) propertyName).1
  ∧ ArrayPropertyNames (mkList attached in_transaction rows)
    = ArrayPropertyNames (mkList attached in_transaction' rows).
Proof.
  split.
  - unfold ArrayGetProperty, ArrayGetProperty_try, bind, RJSVerifiedArray,
      verify_attached, List_size, link_view_size, lift, List_get, ret.
    cbn [is_attached link_view].
    destruct attached; [|done].
    case_decide; [done|].
    destruct (RJSValidatedPositiveIndex propertyName) as [[]|row_ndx]; try done.
    cbn [link_view]. by destruct (rows !! row_ndx).
  - unfold ArrayPropertyNames, bind, RJSVerifiedArray, verify_attached,
      List_size, link_view_size.
    cbn [is_attached link_view]. by destruct attached.
Qed.

(** ** Enumeration *)

Lemma index_name_inj (i j : nat) : index_name i = index_name j → i = j.
Proof.
  intros Hname. pose proof (RJSValidatedPositiveIndex_index_name i) as Hi.
  rewrite Hname, RJSValidatedPositiveIndex_index_name in Hi. by injection Hi.
Qed.

Lemma ArrayGetProperty_stored (object : List) (i : nat) (row : Row) :
  is_attached object = true →
  link_view object !! i = Some row →
  ArrayGetProperty object (index_name i)
  = (Returned (JSValueOfObject (RJSObjectCreate row)), object).
Proof.
  intros Hattached Hrow.
  destruct object as [attached in_transaction rows].
  simpl in Hattached, Hrow. subst attached.
  unfold ArrayGetProperty, ArrayGetProperty_try, bind, RJSVerifiedArray,
    verify_attached, List_size, link_view_size, lift, List_get, ret.
  cbn [is_attached link_view].
  rewrite decide_False by apply index_name_not_length.
  rewrite RJSValidatedPositiveIndex_index_name. simpl. by rewrite Hrow.
Qed.

(** X3.  On an attached list [ArrayPropertyNames] adds one name per element and
    no other: as many names as the list is long, all different, none of
    them "length", and the name at position k is one [ArrayGetProperty]
    answers with the element stored at offset k. *)
Theorem ArrayPropertyNames_names_the_elements (object : List) :
  is_attached object = true →
  ∃ names : list string,
    ArrayPropertyNames object = inr names
    ∧ length names = length (link_view object)
    ∧ NoDup names
    ∧ ("length"%string ∉ names)
    ∧ (∀ k name, names !! k = Some name →
        ∃ row, link_view object !! k = Some row
               ∧ ArrayGetProperty object name
                 = (Returned (JSValueOfObject (RJSObjectCreate row)), object)).
Proof.
  intros Hattached.
  exists (index_name <$> seq 0 (length (link_view object))).
  split; [|split; [|split; [|split]]].
  - unfold ArrayPropertyNames.
    rewrite (bind_inr _ _ _ _ _ (RJSVerifiedArray_attached object Hattached)).
    done.
  - by rewrite length_fmap, length_seq.
  - apply NoDup_fmap_2; [|apply NoDup_seq].
    intros i j. apply index_name_inj.
  - intros Hin. apply list_elem_of_fmap in Hin as (i & Hname & _).
    by apply (index_name_not_length i).
  - intros k name Hname.
    rewrite list_lookup_fmap in Hname.
    destruct (seq 0 (length (link_view object)) !! k) as [i|] eqn:Hseq; [|done].
    apply lookup_seq in Hseq as [-> Hk]. simpl in Hname.
    injection Hname as <-.
    destruct (lookup_lt_is_Some_2 (link_view object) k Hk) as [row Hrow].
    exists row. split; [done|]. by apply ArrayGetProperty_stored.
Qed.

(** ** Assignment to a slot *)

Section Assignment.
Context {JSValueRef : Type} (to_object_index : JSValueRef → exception + Row).
Implicit Types (object : List) (value : JSValueRef) (propertyName : string).

(** [ArraySetProperty] once the guard has passed, on a name that parses. *)
Lemma ArraySetProperty_parsed object propertyName value (row_ndx : nat) :
  is_attached object = true →
  is_in_transaction object = true →
  RJSValidatedPositiveIndex propertyName = inr row_ndx →
  ArraySetProperty to_object_index object propertyName value
  = match to_object_index value with
    | inr target =>
        if decide (row_ndx < length (link_view object))
        then (Returned tt,
              with_link_view object (<[row_ndx := target]> (link_view object)))
        else (Raised out_of_range, object)
    | inl invalid_argument => (NotHandled, object)
    | inl exp => (Raised exp, object)
    end.
Proof.
  intros Hattached Hwrite Hparsed.
  assert (Hname : propertyName ≠ "length"%string) by (by intros ->).
  unfold ArraySetProperty, ArraySetProperty_try.
  rewrite (bind_inr _ _ _ _ _
             (RJSVerifiedMutableArray_writable object Hattached Hwrite)).
  rewrite decide_False by done.
  unfold bind, ret, lift, List_set. rewrite Hparsed.
  destruct (to_object_index value) as [[]|target]; try done.
  by case_decide.
Qed.

(** X4.  Assignment to an existing slot: on an attached list inside a write
    transaction, [ArraySetProperty] on the name of an index below the
    length, with a value that coerces, replaces that one element in place
    and reports success; the length and every other element stay. *)
Theorem ArraySetProperty_replaces_slot object value (target : Row) (i : nat) :
  is_attached object = true →
  is_in_transaction object = true →
  to_object_index value = inr target →
  i < length (link_view object) →
  ∃ object',
    ArraySetProperty to_object_index object (index_name i) value
    = (Returned tt, object')
    ∧ length (link_view object') = length (link_view object)
    ∧ link_view object' !! i = Some target
    ∧ ∀ j, j ≠ i → link_view object' !! j = link_view object !! j.
Proof.
  intros Hattached Hwrite Htarget Hi.
  exists (with_link_view object (<[i := target]> (link_view object))).
  rewrite (ArraySetProperty_parsed _ _ _ i)
    by (done || apply RJSValidatedPositiveIndex_index_name).
  rewrite Htarget, decide_True by done. simpl.
  split; [done|]. split; [apply length_insert|].
  split; [by apply list_lookup_insert_eq|].
  intros j Hj. by apply list_lookup_insert_ne.
Qed.

(** X5.  Assignment never grows the list: on the name of an index at or beyond
    the length the [std::out_of_range] of [List::set] is raised to the
    caller ([ArrayGetProperty] turns the same exception into undefined) and
    the list is unchanged. *)
Theorem ArraySetProperty_beyond_length_raises object value (target : Row) (i : nat) :
  is_attached object = true →
  is_in_transaction object = true →
  to_object_index value = inr target →
  length (link_view object) ≤ i →
  ArraySetProperty to_object_index object (index_name i) value
  = (Raised out_of_range, object)
  ∧ ArrayGetProperty object (index_name i)
    = (Returned JSValueMakeUndefined, object).
Proof.
  intros Hattached Hwrite Htarget Hi. split.
  - rewrite (ArraySetProperty_parsed _ _ _ i)
      by (done || apply RJSValidatedPositiveIndex_index_name).
    rewrite Htarget. by rewrite decide_False by lia.
  - destruct object as [attached in_transaction rows].
    simpl in Hattached, Hi. subst attached.
    unfold ArrayGetProperty, ArrayGetProperty_try, bind, RJSVerifiedArray,
      verify_attached, List_size, link_view_size, lift, List_get, ret.
    cbn [is_attached link_view].
    rewrite decide_False by apply index_name_not_length.
    rewrite RJSValidatedPositiveIndex_index_name. simpl.
    by rewrite lookup_ge_None_2.
Qed.

(** X6.  A value that does not coerce: on a name that parses as an index,
    whether inside the list or not, the exception of [to_object_index]
    decides the outcome and the list is unchanged.  A [std::invalid_argument]
    is taken by the clause meant for names that are not indices, so the
    callback answers false without an exception; anything else is raised. *)
Theorem ArraySetProperty_coercion_failure
    object propertyName value (row_ndx : nat) (exp : exception) :
  is_attached object = true →
  is_in_transaction object = true →
  RJSValidatedPositiveIndex propertyName = inr row_ndx →
  to_object_index value = inl exp →
  ArraySetProperty to_object_index object propertyName value
  = (match exp with invalid_argument => NotHandled | _ => Raised exp end, object).
Proof.
  intros Hattached Hwrite Hparsed Hfail.
  rewrite (ArraySetProperty_parsed _ _ _ row_ndx) by done.
  rewrite Hfail. by destruct exp.
Qed.

End Assignment.

(** [ArrayGetProperty] on the name of an index, on an attached list. *)
Lemma ArrayGetProperty_index_name (object : List) (i : nat) :
  is_attached object = true →
  ArrayGetProperty object (index_name i)
  = (match link_view object !! i with
     | Some row => Returned (JSValueOfObject (RJSObjectCreate row))
     | None => Returned JSValueMakeUndefined
     end, object).
Proof.
  intros Hattached.
  destruct object as [attached in_transaction rows].
  simpl in Hattached. subst attached.
  unfold ArrayGetProperty, ArrayGetProperty_try, bind, RJSVerifiedArray,
    verify_attached, List_size, link_view_size, lift, List_get, ret.
  cbn [is_attached link_view].
  rewrite decide_False by apply index_name_not_length.
  rewrite RJSValidatedPositiveIndex_index_name. simpl.
  by destruct (rows !! i).
Qed.

Section Assignment_and_reading.
Context {JSValueRef : Type} (to_object_index : JSValueRef → exception + Row).
Implicit Types (object : List) (value : JSValueRef) (propertyName : string).

(** X7.  Reading back what was assigned: after a successful [ArraySetProperty]
    on index i, [ArrayGetProperty] on i answers with the wrapper of the row
    the value coerced to, and on any other index with what it answered
    before. *)
Theorem ArrayGetProperty_after_ArraySetProperty
    object value (target : Row) (i : nat) :
  is_attached object = true →
  is_in_transaction object = true →
  to_object_index value = inr target →
  i < length (link_view object) →
  let object' := (ArraySetProperty to_object_index object (index_name i) value).2 in
  ArrayGetProperty object' (index_name i)
  = (Returned (JSValueOfObject (RJSObjectCreate target)), object')
  ∧ ∀ j, j ≠ i →
      (ArrayGetProperty object' (index_name j)).1
      = (ArrayGetProperty object (index_name j)).1.
Proof.
  intros Hattached Hwrite Htarget Hi object'.
  assert (Hobject' :
    object' = with_link_view object (<[i := target]> (link_view object))).
  { unfold object'.
    rewrite (ArraySetProperty_parsed _ _ _ _ i)
      by (done || apply RJSValidatedPositiveIndex_index_name).
    by rewrite Htarget, decide_True by done. }
  rewrite Hobject'. split.
  - rewrite ArrayGetProperty_index_name by done. simpl.
    by rewrite list_lookup_insert_eq.
  - intros j Hj. rewrite !ArrayGetProperty_index_name by done. simpl.
    by rewrite list_lookup_insert_ne.
Qed.

(** X8.  Names that are not indices are left to the host: when the index
    resolver rejects the name with [std::invalid_argument] and the name is
    not "length", [ArrayGetProperty] and (inside a write transaction, with a
    value that coerces) [ArraySetProperty] answer NULL, respectively false,
    raise nothing and leave the list as it was. *)
Theorem not_an_index_is_not_handled object propertyName value (target : Row) :
  is_attached object = true →
  RJSValidatedPositiveIndex propertyName = inl invalid_argument →
  propertyName ≠ "length"%string →
  ArrayGetProperty object propertyName = (NotHandled, object)
  ∧ (is_in_transaction object = true →
     to_object_index value = inr target →
     ArraySetProperty to_object_index object propertyName value
     = (NotHandled, object)).
Proof.
  intros Hattached Hrejected Hname. split.
  - unfold ArrayGetProperty, ArrayGetProperty_try.
    rewrite (bind_inr _ _ _ _ _ (RJSVerifiedArray_attached object Hattached)).
    unfold bind, List_size, link_view_size, lift.
    rewrite decide_False by done. by rewrite Hrejected.
  - intros Hwrite Htarget.
    unfold ArraySetProperty, ArraySetProperty_try.
    rewrite (bind_inr _ _ _ _ _
               (RJSVerifiedMutableArray_writable object Hattached Hwrite)).
    rewrite decide_False by done.
    unfold bind, ret, lift. by rewrite Hrejected.
Qed.

(** X9.  [ArraySetProperty] never changes the length of the list, whatever the
    name, the value and the state of the list, and whether it succeeds or
    not. *)
Theorem ArraySetProperty_keeps_length object propertyName value :
  length (link_view (ArraySetProperty to_object_index object propertyName value).2)
  = length (link_view object).
Proof.
  unfold ArraySetProperty, ArraySetProperty_try, RJSVerifiedMutableArray,
    RJSVerifiedArray, verify_attached, bind, ret, throw, lift, List_set.
  destruct (is_attached object); [|done].
  destruct (is_in_transaction object); [|done]. simpl.
  case_decide; [done|].
  destruct (RJSValidatedPositiveIndex propertyName) as [[]|row_ndx]; try done.
  destruct (to_object_index value) as [[]|target]; try done.
  case_decide; [|done]. simpl. apply length_insert.
Qed.

End Assignment_and_reading.

(** ** Attachment and transaction are observed, never driven *)

Section Keeps_flags.
Context {JSValueRef : Type}.
Context (to_object_index : JSValueRef → exception + Row).
Context (RJSValidatedValueToNumber : JSValueRef → exception + Z).

Lemma keeps_flags_bind {A B} (m : M A) (k : A → M B) :
  keeps_flags m → (∀ a, keeps_flags (k a)) → keeps_flags (bind m k).
Proof.
  intros Hm Hk self. unfold bind.
  specialize (Hm self). destruct (m self) as [[e|a] self']; [done|].
  simpl in Hm. destruct (Hk a self') as [-> ->]. done.
Qed.

Lemma keeps_flags_ret {A} (a : A) : keeps_flags (ret a).
Proof. done. Qed.

Lemma keeps_flags_throw {A} (e : exception) : keeps_flags (throw (A := A) e).
Proof. done. Qed.

Lemma keeps_flags_lift {A} (r : exception + A) : keeps_flags (lift r).
Proof. done. Qed.

Lemma keeps_flags_link_view_size : keeps_flags link_view_size.
Proof. done. Qed.

Lemma keeps_flags_link_view_add target : keeps_flags (link_view_add target).
Proof. done. Qed.

Lemma keeps_flags_link_view_insert ndx target :
  keeps_flags (link_view_insert ndx target).
Proof. done. Qed.

Lemma keeps_flags_link_view_remove ndx : keeps_flags (link_view_remove ndx).
Proof. done. Qed.

Lemma keeps_flags_List_get row_ndx : keeps_flags (List_get row_ndx).
Proof. intros self. unfold List_get. by destruct (link_view self !! row_ndx). Qed.

Lemma keeps_flags_List_set row_ndx target : keeps_flags (List_set row_ndx target).
Proof. intros self. unfold List_set. by case_decide. Qed.

Lemma keeps_flags_RJSVerifiedArray : keeps_flags RJSVerifiedArray.
Proof.
  intros self. unfold RJSVerifiedArray, verify_attached.
  by destruct self as [[] in_transaction rows].
Qed.

Lemma keeps_flags_RJSVerifiedMutableArray : keeps_flags RJSVerifiedMutableArray.
Proof.
  apply keeps_flags_bind; [apply keeps_flags_RJSVerifiedArray|].
  intros _ self. by destruct self as [attached [] rows].
Qed.

Lemma keeps_flags_RJSValidateArgumentCount argumentCount expected :
  keeps_flags (RJSValidateArgumentCount argumentCount expected).
Proof. unfold RJSValidateArgumentCount. by case_decide. Qed.

Lemma keeps_flags_RJSValidateArgumentCountIsAtLeast argumentCount expected :
  keeps_flags (RJSValidateArgumentCountIsAtLeast argumentCount expected).
Proof. unfold RJSValidateArgumentCountIsAtLeast. by case_decide. Qed.

Create HintDb keeps_flags discriminated.
#[local] Hint Resolve keeps_flags_ret keeps_flags_throw keeps_flags_lift
  keeps_flags_link_view_size keeps_flags_link_view_add
  keeps_flags_link_view_insert keeps_flags_link_view_remove
  keeps_flags_List_get keeps_flags_List_set keeps_flags_RJSVerifiedArray
  keeps_flags_RJSVerifiedMutableArray keeps_flags_RJSValidateArgumentCount
  keeps_flags_RJSValidateArgumentCountIsAtLeast : keeps_flags.

(** Splits a computation at its binds and closes the leaves with the
    lemmas above. *)
Ltac solve_keeps_flags :=
  repeat first
    [ solve [auto with keeps_flags]
    | apply keeps_flags_bind; [|intros ?]
    | case_decide ].

Lemma keeps_flags_ArrayPush_loop arguments :
  keeps_flags (ArrayPush_loop to_object_index arguments).
Proof. induction arguments as [|argument arguments IH]; simpl; solve_keeps_flags. Qed.

Lemma keeps_flags_ArrayUnshift_loop i arguments :
  keeps_flags (ArrayUnshift_loop to_object_index i arguments).
Proof.
  revert i. induction arguments as [|argument arguments IH]; intros i; simpl;
    solve_keeps_flags.
Qed.

Lemma keeps_flags_ArraySplice_remove_loop count index :
  keeps_flags (ArraySplice_remove_loop count index).
Proof. induction count as [|count IH]; simpl; solve_keeps_flags. Qed.

Lemma keeps_flags_ArraySplice_insert_loop index i arguments :
  keeps_flags (ArraySplice_insert_loop to_object_index index i arguments).
Proof.
  revert i. induction arguments as [|argument arguments IH]; intros i; simpl;
    solve_keeps_flags.
Qed.

Lemma catch_exception_state (try : M JSValue) (thisObject : List) :
  (catch_exception try thisObject).2 = (try thisObject).2.
Proof. unfold catch_exception. by destruct (try thisObject) as [[]]. Qed.

(** X10.  No callback drives the state of the handle: after each of them,
    whatever the arguments and the outcome, the list is attached exactly if
    it was before and a write transaction is open exactly if one was; only
    the rows can have changed. *)
Theorem callbacks_keep_attachment_and_transaction
    (object : List) (propertyName : string) (value : JSValueRef)
    (arguments : list JSValueRef) :
  let same_flags (object' : List) :=
    is_attached object' = is_attached object
    ∧ is_in_transaction object' = is_in_transaction object in
  same_flags (ArrayGetProperty object propertyName).2
  ∧ same_flags (ArraySetProperty to_object_index object propertyName value).2
  ∧ same_flags (ArrayPush to_object_index object arguments).2
  ∧ same_flags (ArrayPop object arguments).2
  ∧ same_flags (ArrayUnshift to_object_index object arguments).2
  ∧ same_flags (ArrayShift object arguments).2
  ∧ same_flags
      (ArraySplice to_object_index RJSValidatedValueToNumber object arguments).2.
Proof.
  intros same_flags. unfold same_flags.
  pose proof keeps_flags_ArrayPush_loop.
  pose proof keeps_flags_ArrayUnshift_loop.
  pose proof keeps_flags_ArraySplice_remove_loop.
  pose proof keeps_flags_ArraySplice_insert_loop.
  split; [|split].
  - assert (Htry : keeps_flags (ArrayGetProperty_try propertyName))
      by (unfold ArrayGetProperty_try; solve_keeps_flags).
    specialize (Htry object). unfold ArrayGetProperty.
    by destruct (ArrayGetProperty_try propertyName object) as [[[]|]].
  - assert (Htry : keeps_flags
               (ArraySetProperty_try _ to_object_index propertyName value))
      by (unfold ArraySetProperty_try; solve_keeps_flags).
    specialize (Htry object). unfold ArraySetProperty.
    by destruct (ArraySetProperty_try _ to_object_index propertyName value object)
      as [[[]|[]]].
  - unfold ArrayPush, ArrayPop, ArrayUnshift, ArrayShift, ArraySplice.
    rewrite !catch_exception_state.
    repeat split;
      match goal with
      | |- context [(?m object).2] =>
          assert (Hm : keeps_flags m);
          [|by destruct (Hm object)]
      end.
    all: try (solve_keeps_flags; fail).
    all: destruct arguments as [|argument0 [|argument1 inserted]];
      solve_keeps_flags.
Qed.

End Keeps_flags.

(** ** Append and Prepend, composed *)

Section Append_Prepend_composed.
Context {JSValueRef : Type} (to_object_index : JSValueRef → exception + Row).
Implicit Types (thisObject : List) (arguments : list JSValueRef) (rows : list Row).

(** [ArrayPush] and [ArrayUnshift] once the guard and the argument count
    have passed: the loop, then the size. *)
Lemma ArrayPush_guarded thisObject arguments :
  is_attached thisObject = true →
  is_in_transaction thisObject = true →
  1 ≤ length arguments →
  ArrayPush to_object_index thisObject arguments
  = match ArrayPush_loop to_object_index arguments thisObject with
    | (inr _, thisObject') =>
        (Returned (JSValueMakeNumber (Z.of_nat (length (link_view thisObject')))),
         thisObject')
    | (inl exp, thisObject') => (Raised exp, thisObject')
    end.
Proof.
  intros Hattached Hwrite Hcount. unfold ArrayPush.
  rewrite catch_exception_guard_passes by done.
  unfold catch_exception, RJSValidateArgumentCountIsAtLeast.
  rewrite decide_True by done.
  unfold bind, ret, link_view_size.
  by destruct (ArrayPush_loop to_object_index arguments thisObject) as [[]].
Qed.

Lemma ArrayUnshift_guarded thisObject arguments :
  is_attached thisObject = true →
  is_in_transaction thisObject = true →
  1 ≤ length arguments →
  ArrayUnshift to_object_index thisObject arguments
  = match ArrayUnshift_loop to_object_index 0 arguments thisObject with
    | (inr _, thisObject') =>
        (Returned (JSValueMakeNumber (Z.of_nat (length (link_view thisObject')))),
         thisObject')
    | (inl exp, thisObject') => (Raised exp, thisObject')
    end.
Proof.
  intros Hattached Hwrite Hcount. unfold ArrayUnshift.
  rewrite catch_exception_guard_passes by done.
  unfold catch_exception, RJSValidateArgumentCountIsAtLeast.
  rewrite decide_True by done.
  unfold bind, ret, link_view_size.
  by destruct (ArrayUnshift_loop to_object_index 0 arguments thisObject) as [[]].
Qed.

(** A static function that returned a value had its guard passed. *)
Lemma Returned_guard_passed (k : M JSValue) thisObject value thisObject' :
  catch_exception (RJSVerifiedMutableArray;;; k) thisObject
  = (Returned value, thisObject') →
  is_attached thisObject = true ∧ is_in_transaction thisObject = true.
Proof.
  intros Hreturned.
  destruct (is_attached thisObject) eqn:Hattached.
  - destruct (is_in_transaction thisObject) eqn:Hwrite; [done|].
    by rewrite (catch_exception_guard_throws _ _ IllegalMutationError) in Hreturned
      by by apply RJSVerifiedMutableArray_no_transaction.
  - by rewrite (catch_exception_guard_throws _ _ StaleReferenceError) in Hreturned
      by by apply RJSVerifiedMutableArray_detached.
Qed.

Lemma ArrayPush_Returned thisObject arguments value thisObject' :
  ArrayPush to_object_index thisObject arguments = (Returned value, thisObject') →
  is_attached thisObject = true ∧ is_in_transaction thisObject = true
  ∧ 1 ≤ length arguments
  ∧ ArrayPush_loop to_object_index arguments thisObject = (inr tt, thisObject')
  ∧ value = JSValueMakeNumber (Z.of_nat (length (link_view thisObject'))).
Proof.
  intros Hreturned.
  destruct (Returned_guard_passed _ _ _ _ Hreturned) as [Hattached Hwrite].
  assert (Hcount : 1 ≤ length arguments).
  { destruct arguments; [|simpl; lia].
    unfold ArrayPush in Hreturned.
    by rewrite catch_exception_guard_passes in Hreturned by done. }
  rewrite ArrayPush_guarded in Hreturned by done.
  destruct (ArrayPush_loop to_object_index arguments thisObject) as [[exp|[]] s];
    [done|].
  by injection Hreturned as <- <-.
Qed.

Lemma ArrayPush_loop_app arguments arguments' thisObject :
  ArrayPush_loop to_object_index (arguments ++ arguments') thisObject
  = (ArrayPush_loop to_object_index arguments;;;
     ArrayPush_loop to_object_index arguments') thisObject.
Proof.
  revert thisObject.
  induction arguments as [|argument arguments IH]; intros thisObject; [done|].
  simpl. unfold bind at 1 3, lift.
  destruct (to_object_index argument) as [exp|target]; [done|].
  unfold bind at 1 3, link_view_add. rewrite IH. unfold bind.
  by destruct (ArrayPush_loop to_object_index arguments _) as [[]].
Qed.

(** X11.  One append of two runs of arguments is two appends: when [ArrayPush]
    on the first run returned, [ArrayPush] on both runs together does what
    [ArrayPush] on the second run does to the list the first call left,
    whether the second run coerces or fails part of the way. *)
Theorem ArrayPush_splits thisObject arguments arguments' value thisObject' :
  ArrayPush to_object_index thisObject arguments = (Returned value, thisObject') →
  1 ≤ length arguments' →
  ArrayPush to_object_index thisObject (arguments ++ arguments')
  = ArrayPush to_object_index thisObject' arguments'.
Proof.
  intros Hfirst Hcount'.
  destruct (ArrayPush_Returned _ _ _ _ Hfirst)
    as (Hattached & Hwrite & Hcount & Hloop & _).
  destruct (keeps_flags_ArrayPush_loop to_object_index arguments thisObject)
    as [Hattached' Hwrite'].
  rewrite Hloop in Hattached', Hwrite'. simpl in Hattached', Hwrite'.
  rewrite !ArrayPush_guarded; try congruence.
  - rewrite ArrayPush_loop_app. unfold bind at 1. by rewrite Hloop.
  - rewrite length_app. lia.
Qed.

(** X12.  The number [ArrayPush] or [ArrayUnshift] returns is the length the list
    has afterwards: a read of "length" that follows answers that number. *)
Theorem returned_length_is_read_back thisObject arguments value thisObject' :
  ArrayPush to_object_index thisObject arguments = (Returned value, thisObject')
  ∨ ArrayUnshift to_object_index thisObject arguments = (Returned value, thisObject') →
  ArrayGetProperty thisObject' "length" = (Returned value, thisObject').
Proof.
  intros Hreturned.
  assert (Hafter : is_attached thisObject' = true
            ∧ value = JSValueMakeNumber (Z.of_nat (length (link_view thisObject')))).
  { destruct Hreturned as [Hreturned|Hreturned].
    - destruct (ArrayPush_Returned _ _ _ _ Hreturned)
        as (Hattached & _ & _ & Hloop & Hvalue).
      destruct (keeps_flags_ArrayPush_loop to_object_index arguments thisObject)
        as [Hattached' _].
      rewrite Hloop in Hattached'. simpl in Hattached'. split; congruence.
    - destruct (Returned_guard_passed _ _ _ _ Hreturned) as [Hattached Hwrite].
      assert (Hcount : 1 ≤ length arguments).
      { destruct arguments; [|simpl; lia].
        unfold ArrayUnshift in Hreturned.
        by rewrite catch_exception_guard_passes in Hreturned by done. }
      rewrite ArrayUnshift_guarded in Hreturned by done.
      destruct (keeps_flags_ArrayUnshift_loop to_object_index 0 arguments thisObject)
        as [Hattached' _].
      destruct (ArrayUnshift_loop to_object_index 0 arguments thisObject)
        as [[exp|[]] s]; [done|].
      injection Hreturned as <- <-. simpl in Hattached'. split; congruence. }
  destruct Hafter as [Hattached' ->].
  unfold ArrayGetProperty, ArrayGetProperty_try.
  by rewrite (bind_inr _ _ _ _ _ (RJSVerifiedArray_attached _ Hattached')).
Qed.

End Append_Prepend_composed.

Section Round_trips.
Context {JSValueRef : Type} (to_object_index : JSValueRef → exception + Row).
Implicit Types (thisObject : List) (arguments : list JSValueRef) (rows : list Row).

Lemma ArrayPush_coerced thisObject arguments rows :
  is_attached thisObject = true →
  is_in_transaction thisObject = true →
  1 ≤ length arguments →
  coerced to_object_index arguments rows →
  ArrayPush to_object_index thisObject arguments
  = (Returned (JSValueMakeNumber
       (Z.of_nat (length (link_view thisObject ++ rows)))),
     with_link_view thisObject (link_view thisObject ++ rows)).
Proof.
  intros Hattached Hwrite Hcount Hrows.
  rewrite ArrayPush_guarded by done.
  by rewrite (ArrayPush_loop_coerced _ _ rows).
Qed.

Lemma ArrayUnshift_coerced thisObject arguments rows :
  is_attached thisObject = true →
  is_in_transaction thisObject = true →
  1 ≤ length arguments →
  coerced to_object_index arguments rows →
  ArrayUnshift to_object_index thisObject arguments
  = (Returned (JSValueMakeNumber
       (Z.of_nat (length (rows ++ link_view thisObject)))),
     with_link_view thisObject (rows ++ link_view thisObject)).
Proof.
  intros Hattached Hwrite Hcount Hrows.
  rewrite ArrayUnshift_guarded by done.
  rewrite (ArrayUnshift_loop_coerced _ _ rows) by (done || lia).
  by rewrite drop_0.
Qed.

(** X13.  What one call puts at an end of the list, the matching removal takes
    back: after [ArrayPush] of one value, [ArrayPop] returns the wrapper of
    the row the value coerced to and the list is again what it was before
    the two calls; the same for [ArrayUnshift] followed by [ArrayShift]. *)
Theorem removal_undoes_insertion_at_the_same_end
    thisObject (argument : JSValueRef) (target : Row) :
  is_attached thisObject = true →
  is_in_transaction thisObject = true →
  to_object_index argument = inr target →
  ArrayPop (JSValueRef := JSValueRef)
    (ArrayPush to_object_index thisObject [argument]).2 []
  = (Returned (JSValueOfObject (RJSObjectCreate target)), thisObject)
  ∧ ArrayShift (JSValueRef := JSValueRef)
      (ArrayUnshift to_object_index thisObject [argument]).2 []
    = (Returned (JSValueOfObject (RJSObjectCreate target)), thisObject).
Proof.
  intros Hattached Hwrite Htarget.
  assert (Hrows : coerced to_object_index [argument] [target])
    by (by repeat constructor).
  rewrite (ArrayPush_coerced _ _ [target]), (ArrayUnshift_coerced _ _ [target])
    by (done || simpl; lia).
  cbn [snd]. split.
  - rewrite (ArrayPop_last _ (link_view thisObject) target) by done.
    by rewrite with_link_view_twice, with_link_view_same.
  - rewrite (ArrayShift_first _ target (link_view thisObject)) by done.
    by rewrite with_link_view_twice, with_link_view_same.
Qed.

(** X14.  First in, first out, and last in, first out: after [ArrayPush] of one
    value on a non-empty list [ArrayShift] still returns the element that
    was first, and after [ArrayUnshift] of one value [ArrayPop] still
    returns the element that was last; the new value stays in the list. *)
Theorem removal_at_the_other_end
    thisObject (argument : JSValueRef) (target first last : Row) rows :
  is_attached thisObject = true →
  is_in_transaction thisObject = true →
  to_object_index argument = inr target →
  (link_view thisObject = first :: rows →
   ArrayShift (JSValueRef := JSValueRef)
     (ArrayPush to_object_index thisObject [argument]).2 []
   = (Returned (JSValueOfObject (RJSObjectCreate first)),
      with_link_view thisObject (rows ++ [target])))
  ∧ (link_view thisObject = rows ++ [last] →
     ArrayPop (JSValueRef := JSValueRef)
       (ArrayUnshift to_object_index thisObject [argument]).2 []
     = (Returned (JSValueOfObject (RJSObjectCreate last)),
        with_link_view thisObject (target :: rows))).
Proof.
  intros Hattached Hwrite Htarget.
  assert (Hrows : coerced to_object_index [argument] [target])
    by (by repeat constructor).
  rewrite (ArrayPush_coerced _ _ [target]), (ArrayUnshift_coerced _ _ [target])
    by (done || simpl; lia).
  cbn [snd]. split; intros Hlist; rewrite Hlist.
  - by rewrite (ArrayShift_first _ first (rows ++ [target])).
  - by rewrite (ArrayPop_last _ (target :: rows) last).
Qed.

(** X15.  One prepend of two runs of arguments is two prepends, the later run
    first: when every value coerces, [ArrayUnshift] on both runs together
    returns what [ArrayUnshift] on the first run returns on the list that
    [ArrayUnshift] on the second run left. *)
Theorem ArrayUnshift_splits thisObject arguments arguments' rows rows' :
  is_attached thisObject = true →
  is_in_transaction thisObject = true →
  1 ≤ length arguments → 1 ≤ length arguments' →
  coerced to_object_index arguments rows →
  coerced to_object_index arguments' rows' →
  ArrayUnshift to_object_index thisObject (arguments ++ arguments')
  = ArrayUnshift to_object_index
      (ArrayUnshift to_object_index thisObject arguments').2 arguments.
Proof.
  intros Hattached Hwrite Hcount Hcount' Hrows Hrows'.
  rewrite (ArrayUnshift_coerced _ arguments' rows') by done. cbn [snd].
  rewrite (ArrayUnshift_coerced _ arguments rows) by done.
  rewrite (ArrayUnshift_coerced _ (arguments ++ arguments') (rows ++ rows')).
  - simpl. by rewrite with_link_view_twice, <- app_assoc.
  - done.
  - done.
  - rewrite length_app. lia.
  - by apply Forall2_app.
Qed.

End Round_trips.

(** ** Splice: errors, and the other mutations as special cases *)

Section Splice_cases.
Context {JSValueRef : Type}.
Context (to_object_index : JSValueRef → exception + Row).
Context (RJSValidatedValueToNumber : JSValueRef → exception + Z).
Implicit Types (thisObject : List) (rows : list Row).

(** X16.  [ArraySplice] with fewer than two arguments fails with
    [ArgumentCountError] and changes nothing. *)
Theorem ArraySplice_too_few_arguments thisObject (arguments : list JSValueRef) :
  is_attached thisObject = true →
  is_in_transaction thisObject = true →
  length arguments < 2 →
  ArraySplice to_object_index RJSValidatedValueToNumber thisObject arguments
  = (Raised ArgumentCountError, thisObject).
Proof.
  intros Hattached Hwrite Hcount. unfold ArraySplice.
  rewrite catch_exception_guard_passes by done.
  unfold catch_exception, bind, List_size, link_view_size,
    RJSValidateArgumentCountIsAtLeast.
  by rewrite decide_False by lia.
Qed.

(** X17.  Both numbers are converted before anything is removed: when the first
    or the second argument of [ArraySplice] is not convertible to a number,
    the exception of the conversion is raised and the list is unchanged,
    whatever the other arguments are. *)
Theorem ArraySplice_number_failure
    thisObject (start deleteCount : JSValueRef) (inserted : list JSValueRef)
    (exp : exception) :
  is_attached thisObject = true →
  is_in_transaction thisObject = true →
  RJSValidatedValueToNumber start = inl exp
  ∨ (∃ number0, RJSValidatedValueToNumber start = inr number0)
    ∧ RJSValidatedValueToNumber deleteCount = inl exp →
  ArraySplice to_object_index RJSValidatedValueToNumber thisObject
    (start :: deleteCount :: inserted)
  = (Raised exp, thisObject).
Proof.
  intros Hattached Hwrite Hfail. unfold ArraySplice.
  rewrite catch_exception_guard_passes by done.
  unfold catch_exception, List_size, link_view_size, bind at 1.
  unfold RJSValidateArgumentCountIsAtLeast.
  rewrite decide_True by (simpl; lia).
  unfold bind at 1, ret at 1. unfold bind at 1, lift at 1.
  destruct Hfail as [-> | [[number0 ->] Hfail]]; [done|].
  unfold bind at 1, lift at 1. by rewrite Hfail.
Qed.

(** [ArraySplice] when everything converts and coerces. *)
Lemma ArraySplice_coerced
    thisObject (start deleteCount : JSValueRef) (inserted : list JSValueRef)
    (number0 number1 : Z) rows :
  is_attached thisObject = true →
  is_in_transaction thisObject = true →
  (Z.of_nat (length (link_view thisObject) + length inserted) < 2 ^ 63)%Z →
  RJSValidatedValueToNumber start = inr number0 → is_long number0 →
  RJSValidatedValueToNumber deleteCount = inr number1 → is_long number1 →
  coerced to_object_index inserted rows →
  let size := Z.of_nat (length (link_view thisObject)) in
  let index := Z.to_nat (spec_clamped_start size number0) in
  let remove :=
    Z.to_nat (spec_clamped_deleteCount size (spec_clamped_start size number0) number1) in
  ArraySplice to_object_index RJSValidatedValueToNumber thisObject
    (start :: deleteCount :: inserted)
  = (Returned (JSObjectMakeArray
       (RJSObjectCreate <$> take remove (drop index (link_view thisObject)))),
     with_link_view thisObject
       (take index (link_view thisObject) ++ rows
        ++ drop (index + remove) (link_view thisObject))).
Proof.
  intros Hattached Hwrite Hfits Hnumber0 Hlong0 Hnumber1 Hlong1 Hrows.
  intros size index remove.
  destruct (ArraySplice_after_removal to_object_index RJSValidatedValueToNumber
              thisObject start deleteCount inserted number0 number1)
    as (Hrange & _ & Hcall); try done; [lia|].
  fold size index remove in Hrange, Hcall.
  destruct (take_drop_kept index remove (link_view thisObject) Hrange)
    as (Htake & Hdrop & Hlength).
  rewrite Hcall. unfold catch_exception, bind.
  rewrite (ArraySplice_insert_loop_coerced _ inserted rows); simpl;
    rewrite ?Nat2Z.id, ?Nat.add_0_r; try done; try lia.
  by rewrite Htake, Hdrop.
Qed.

(** X19.  [ArraySplice] that only inserts is [ArrayUnshift] or [ArrayPush]:
    with start and deleteCount in the range of a [long] and at least one
    value to insert, all of which coerce, start 0 and a deleteCount of 0 or
    less leave the list [ArrayUnshift] leaves, a start at or beyond the
    length leaves the list [ArrayPush] leaves whatever the deleteCount in
    that range, and in both cases the array returned is empty. *)
Theorem ArraySplice_inserting_at_an_end
    thisObject (start deleteCount : JSValueRef) (inserted : list JSValueRef)
    (number0 number1 : Z) rows :
  is_attached thisObject = true →
  is_in_transaction thisObject = true →
  (Z.of_nat (length (link_view thisObject) + length inserted) < 2 ^ 63)%Z →
  RJSValidatedValueToNumber start = inr number0 → is_long number0 →
  RJSValidatedValueToNumber deleteCount = inr number1 → is_long number1 →
  coerced to_object_index inserted rows →
  1 ≤ length inserted →
  (number0 = 0%Z → (number1 ≤ 0)%Z →
   ArraySplice to_object_index RJSValidatedValueToNumber thisObject
     (start :: deleteCount :: inserted)
   = (Returned (JSObjectMakeArray []),
      (ArrayUnshift to_object_index thisObject inserted).2))
  ∧ ((Z.of_nat (length (link_view thisObject)) ≤ number0)%Z →
     ArraySplice to_object_index RJSValidatedValueToNumber thisObject
       (start :: deleteCount :: inserted)
     = (Returned (JSObjectMakeArray []),
        (ArrayPush to_object_index thisObject inserted).2)).
Proof.
  intros Hattached Hwrite Hfits Hnumber0 Hlong0 Hnumber1 Hlong1 Hrows Hcount.
  rewrite (ArraySplice_coerced _ _ _ _ number0 number1 rows) by done.
  rewrite (ArrayUnshift_coerced _ _ _ rows), (ArrayPush_coerced _ _ _ rows) by done.
  cbn [snd]. unfold spec_clamped_start, spec_clamped_deleteCount.
  split.
  - intros -> Hnone. rewrite decide_False by lia.
    replace (Z.to_nat (0 `min` _)) with 0 by lia.
    replace (Z.to_nat (0 `max` _)) with 0 by lia.
    by rewrite take_0, !drop_0.
  - intros Hstart. rewrite decide_False by lia.
    replace (Z.to_nat (number0 `min` _)) with (length (link_view thisObject)) by lia.
    replace (Z.to_nat (0 `max` _)) with 0 by lia.
    by rewrite take_0, Nat.add_0_r, firstn_all, drop_all, app_nil_r.
Qed.

(** X20.  [ArraySplice] that removes one element at an end is [ArrayShift] or
    [ArrayPop]: Splice(0, 1) leaves the list [ArrayShift] leaves and
    Splice(-1, 1) the list [ArrayPop] leaves, and the array returned holds
    exactly the object the other call returns; on an empty list the array
    is empty where the other call returns undefined. *)
Theorem ArraySplice_removing_at_an_end
    thisObject (start deleteCount : JSValueRef) (number0 : Z) :
  is_attached thisObject = true →
  is_in_transaction thisObject = true →
  (Z.of_nat (length (link_view thisObject)) < 2 ^ 63)%Z →
  RJSValidatedValueToNumber start = inr number0 →
  RJSValidatedValueToNumber deleteCount = inr 1%Z →
  let spliced :=
    ArraySplice to_object_index RJSValidatedValueToNumber thisObject
      [start; deleteCount] in
  let removed_like (other : completion JSValue * List) :=
    spliced.2 = other.2
    ∧ match other.1 with
      | Returned (JSValueOfObject object) =>
          spliced.1 = Returned (JSObjectMakeArray [object])
      | _ => spliced.1 = Returned (JSObjectMakeArray [])
      end in
  (number0 = 0%Z → removed_like (ArrayShift (JSValueRef := JSValueRef) thisObject []))
  ∧ (number0 = (-1)%Z →
     removed_like (ArrayPop (JSValueRef := JSValueRef) thisObject [])).
Proof.
  intros Hattached Hwrite Hfits Hnumber0 Hnumber1 spliced removed_like.
  pose proof (λ Hlong0 : is_long number0,
    ArraySplice_coerced thisObject start deleteCount [] number0 1 []
      Hattached Hwrite ltac:(simpl; lia) Hnumber0 Hlong0 Hnumber1
      ltac:(unfold is_long; lia) ltac:(constructor)) as Hspliced.
  cbv zeta in Hspliced. fold spliced in Hspliced.
  unfold removed_like, spec_clamped_start, spec_clamped_deleteCount in *.
  split; intros ->; rewrite Hspliced by (unfold is_long; lia); cbn [fst snd].
  - rewrite decide_False by lia.
    destruct (link_view thisObject) as [|row rows] eqn:Hlist.
    + rewrite ArrayShift_empty by done. simpl. split; [|done].
      by rewrite <- Hlist, with_link_view_same.
    + rewrite (ArrayShift_first _ row rows) by done. cbn [fst snd].
      replace (Z.to_nat (0 `min` _)) with 0 by lia.
      replace (Z.to_nat (0 `max` _)) with 1 by (simpl length; lia).
      by rewrite take_0, !drop_0.
  - rewrite decide_True by lia.
    destruct (link_view thisObject) as [|row rows _] eqn:Hlist using rev_ind.
    + rewrite ArrayPop_empty by done. simpl. split; [|done].
      by rewrite <- Hlist, with_link_view_same.
    + rewrite (ArrayPop_last _ rows row) by done. cbn [fst snd].
      rewrite length_app. simpl length.
      replace (Z.to_nat ((_ + -1) `max` 0)) with (length rows) by lia.
      replace (Z.to_nat (0 `max` _)) with 1 by lia.
      rewrite take_app_length, drop_app_length.
      replace (length rows + 1) with (length (rows ++ [row]))
        by (rewrite length_app; simpl; lia).
      by rewrite drop_all, app_nil_r.
Qed.


End Splice_cases.

(** * The further properties on concrete lists *)

Module Runs.
Import SampleHost.

Lemma ArrayPropertyNames_names_the_elements_witness :
  ∃ names : list string,
    ArrayPropertyNames (mkList true false [10; 20; 30]) = inr names
    ∧ names = ["0"; "1"; "2"]%string
    ∧ NoDup names.
Proof.
  destruct (ArrayPropertyNames_names_the_elements (mkList true false [10; 20; 30])
              eq_refl)
    as (names & Hnames & _ & Hdistinct & _).
  exists names. split; [exact Hnames|]. split; [|exact Hdistinct].
  injection Hnames as <-. reflexivity.
Defined.

Lemma ArraySetProperty_replaces_slot_witness :
  ∃ object',
    ArraySetProperty to_object_index (mkList true true [10; 20; 30]) "1" (Object 7)
    = (Returned tt, object')
    ∧ length (link_view object') = 3
    ∧ link_view object' !! 1 = Some 7
    ∧ ∀ j, j ≠ 1 → link_view object' !! j = [10; 20; 30] !! j.
Proof.
  apply (ArraySetProperty_replaces_slot to_object_index
           (mkList true true [10; 20; 30]) (Object 7) 7 1).
  - reflexivity.
  - reflexivity.
  - reflexivity.
  - simpl. lia.
Defined.

Lemma ArraySetProperty_beyond_length_raises_witness :
  ArraySetProperty to_object_index (mkList true true [10; 20; 30]) "3" (Object 7)
  = (Raised out_of_range, mkList true true [10; 20; 30])
  ∧ ArrayGetProperty (mkList true true [10; 20; 30]) "3"
    = (Returned JSValueMakeUndefined, mkList true true [10; 20; 30]).
Proof.
  apply (ArraySetProperty_beyond_length_raises to_object_index
           (mkList true true [10; 20; 30]) (Object 7) 7 3).
  - reflexivity.
  - reflexivity.
  - reflexivity.
  - simpl. lia.
Defined.

Lemma ArraySetProperty_coercion_failure_witness :
  ArraySetProperty to_object_index (mkList true true [10; 20; 30]) "1" (String "x")
  = (Raised (CoercionError "not an object of the list's schema"),
     mkList true true [10; 20; 30]).
Proof.
  apply (ArraySetProperty_coercion_failure to_object_index
           (mkList true true [10; 20; 30]) "1" (String "x") 1
           (CoercionError "not an object of the list's schema")).
  - reflexivity.
  - reflexivity.
  - reflexivity.
  - reflexivity.
Defined.

Lemma ArrayGetProperty_after_ArraySetProperty_witness :
  let object' :=
    (ArraySetProperty to_object_index (mkList true true [10; 20; 30]) "1"
       (Object 7)).2 in
  ArrayGetProperty object' "1"
  = (Returned (JSValueOfObject (RJSObjectCreate 7)), object')
  ∧ ∀ j, j ≠ 1 →
      (ArrayGetProperty object' (index_name j)).1
      = (ArrayGetProperty (mkList true true [10; 20; 30]) (index_name j)).1.
Proof.
  apply (ArrayGetProperty_after_ArraySetProperty to_object_index
           (mkList true true [10; 20; 30]) (Object 7) 7 1).
  - reflexivity.
  - reflexivity.
  - reflexivity.
  - simpl. lia.
Defined.

Lemma not_an_index_is_not_handled_witness :
  ArrayGetProperty (mkList true true [10; 20; 30]) "push"
  = (NotHandled, mkList true true [10; 20; 30])
  ∧ ArraySetProperty to_object_index (mkList true true [10; 20; 30]) "push"
      (Object 7)
    = (NotHandled, mkList true true [10; 20; 30]).
Proof.
  destruct (not_an_index_is_not_handled to_object_index
              (mkList true true [10; 20; 30]) "push" (Object 7) 7)
    as [Hget Hset].
  - reflexivity.
  - reflexivity.
  - discriminate.
  - split; [exact Hget|]. apply Hset; reflexivity.
Defined.

Lemma ArrayPush_splits_witness :
  ArrayPush to_object_index (mkList true true [4; 5])
    [Object 7; Object 8; String "c"]
  = ArrayPush to_object_index (mkList true true [4; 5; 7]) [Object 8; String "c"].
Proof.
  apply (ArrayPush_splits to_object_index (mkList true true [4; 5])
           [Object 7] [Object 8; String "c"] (JSValueMakeNumber 3)
           (mkList true true [4; 5; 7])).
  - reflexivity.
  - simpl. lia.
Defined.

Lemma returned_length_is_read_back_witness :
  ArrayGetProperty (mkList true true [7; 8; 4; 5]) "length"
  = (Returned (JSValueMakeNumber 4), mkList true true [7; 8; 4; 5]).
Proof.
  apply (returned_length_is_read_back to_object_index (mkList true true [4; 5])
           [Object 7; Object 8]).
  right. reflexivity.
Defined.

Lemma removal_undoes_insertion_at_the_same_end_witness :
  ArrayPop (JSValueRef := value)
    (ArrayPush to_object_index (mkList true true [4; 5]) [Object 7]).2 []
  = (Returned (JSValueOfObject (RJSObjectCreate 7)), mkList true true [4; 5])
  ∧ ArrayShift (JSValueRef := value)
      (ArrayUnshift to_object_index (mkList true true [4; 5]) [Object 7]).2 []
    = (Returned (JSValueOfObject (RJSObjectCreate 7)), mkList true true [4; 5]).
Proof.
  apply (removal_undoes_insertion_at_the_same_end to_object_index
           (mkList true true [4; 5]) (Object 7) 7).
  - reflexivity.
  - reflexivity.
  - reflexivity.
Defined.

Lemma removal_at_the_other_end_witness :
  ArrayShift (JSValueRef := value)
    (ArrayPush to_object_index (mkList true true [4; 5; 6]) [Object 7]).2 []
  = (Returned (JSValueOfObject (RJSObjectCreate 4)), mkList true true [5; 6; 7])
  ∧ ArrayPop (JSValueRef := value)
      (ArrayUnshift to_object_index (mkList true true [4; 5; 6]) [Object 7]).2 []
    = (Returned (JSValueOfObject (RJSObjectCreate 6)), mkList true true [7; 4; 5]).
Proof.
  destruct (removal_at_the_other_end to_object_index (mkList true true [4; 5; 6])
              (Object 7) 7 4 6 [5; 6] eq_refl eq_refl eq_refl) as [Hshift _].
  destruct (removal_at_the_other_end to_object_index (mkList true true [4; 5; 6])
              (Object 7) 7 4 6 [4; 5] eq_refl eq_refl eq_refl) as [_ Hpop].
  split; [exact (Hshift eq_refl) | exact (Hpop eq_refl)].
Defined.

Lemma ArrayUnshift_splits_witness :
  ArrayUnshift to_object_index (mkList true true [4; 5])
    [Object 7; Object 8; Object 9]
  = ArrayUnshift to_object_index
      (ArrayUnshift to_object_index (mkList true true [4; 5]) [Object 9]).2
      [Object 7; Object 8].
Proof.
  apply (ArrayUnshift_splits to_object_index (mkList true true [4; 5])
           [Object 7; Object 8] [Object 9] [7; 8] [9]).
  - reflexivity.
  - reflexivity.
  - simpl. lia.
  - simpl. lia.
  - repeat constructor.
  - repeat constructor.
Defined.

Lemma ArraySplice_too_few_arguments_witness :
  ArraySplice to_object_index to_number (mkList true true [4; 5]) [Number 0]
  = (Raised ArgumentCountError, mkList true true [4; 5]).
Proof.
  apply (ArraySplice_too_few_arguments to_object_index to_number
           (mkList true true [4; 5]) [Number 0]).
  - reflexivity.
  - reflexivity.
  - simpl. lia.
Defined.

Lemma ArraySplice_number_failure_witness :
  ArraySplice to_object_index to_number (mkList true true [4; 5])
    [Number 0; String "two"; Object 7]
  = (Raised (CoercionError "Value not convertible to a number."),
     mkList true true [4; 5]).
Proof.
  apply (ArraySplice_number_failure to_object_index to_number
           (mkList true true [4; 5]) (Number 0) (String "two") [Object 7]).
  - reflexivity.
  - reflexivity.
  - right. split; [exists 0%Z|]; reflexivity.
Defined.


Lemma ArraySplice_inserting_at_an_end_witness :
  ArraySplice to_object_index to_number (mkList true true [4; 5])
    [Number 0; Number 0; Object 7; Object 8]
  = (Returned (JSObjectMakeArray []),
     (ArrayUnshift to_object_index (mkList true true [4; 5])
        [Object 7; Object 8]).2)
  ∧ ArraySplice to_object_index to_number (mkList true true [4; 5])
      [Number 9; Number 3; Object 7; Object 8]
    = (Returned (JSObjectMakeArray []),
       (ArrayPush to_object_index (mkList true true [4; 5])
          [Object 7; Object 8]).2).
Proof.
  destruct (ArraySplice_inserting_at_an_end to_object_index to_number
              (mkList true true [4; 5]) (Number 0) (Number 0)
              [Object 7; Object 8] 0 0 [7; 8]) as [Hfront _];
    [reflexivity | reflexivity | reflexivity | reflexivity | unfold is_long; lia
    | reflexivity | unfold is_long; lia | repeat constructor | simpl; lia |].
  destruct (ArraySplice_inserting_at_an_end to_object_index to_number
              (mkList true true [4; 5]) (Number 9) (Number 3)
              [Object 7; Object 8] 9 3 [7; 8]) as [_ Hback];
    [reflexivity | reflexivity | reflexivity | reflexivity | unfold is_long; lia
    | reflexivity | unfold is_long; lia | repeat constructor | simpl; lia |].
  split.
  - apply Hfront; [reflexivity | lia].
  - apply Hback. simpl. lia.
Defined.

Lemma ArraySplice_removing_at_an_end_witness :
  ArraySplice to_object_index to_number (mkList true true [4; 5; 6])
    [Number 0; Number 1]
  = (Returned (JSObjectMakeArray [RJSObjectCreate 4]), mkList true true [5; 6])
  ∧ ArraySplice to_object_index to_number (mkList true true [4; 5; 6])
      [Number (-1); Number 1]
    = (Returned (JSObjectMakeArray [RJSObjectCreate 6]), mkList true true [4; 5]).
Proof.
  destruct (ArraySplice_removing_at_an_end to_object_index to_number
              (mkList true true [4; 5; 6]) (Number 0) (Number 1) 0
              eq_refl eq_refl eq_refl eq_refl eq_refl) as [Hfront _].
  destruct (ArraySplice_removing_at_an_end to_object_index to_number
              (mkList true true [4; 5; 6]) (Number (-1)) (Number 1) (-1)
              eq_refl eq_refl eq_refl eq_refl eq_refl) as [_ Hback].
  destruct (Hfront eq_refl) as [Hfront_list Hfront_array].
  destruct (Hback eq_refl) as [Hback_list Hback_array].
  split; apply injective_projections; assumption.
Defined.


End Runs.
